(** * Dual-state morphing engine: scatter cloud <-> cone tree

    A shallow embedding of the morphing logic of the scene:

    - [src/types.ts]                  the [TreeState] enum and [DualPosition];
    - [src/store.ts]                  the zustand store ([toggleState]);
    - [Foliage] (point-sprite needles) layout generation, the vertex shader
                                      and the per-frame uniform update;
    - [Ornaments] (instanced meshes)  [useDualStateInstances] and the
                                      per-frame body of [InstancedOrnaments].

    JavaScript and GLSL numbers are embedded as the real numbers they
    approximate ([R]); module [Binary64] replays the per-frame progress
    update in IEEE-754 double arithmetic for concrete runs.  [Math.random]
    is an explicit sample source threaded through the generators. *)

From Stdlib Require Import Reals Lra Lia Psatz ZArith String.
From Stdlib Require Floats.PrimFloat.
From stdpp Require Import base list.

Set Default Proof Using "Type".
Local Open Scope R_scope.

(* ===================================================================== *)
(** * src/types.ts *)
(* ===================================================================== *)

Inductive TreeState : Type :=
| SCATTERED
| TREE_SHAPE.

#[global] Instance TreeState_eq_dec : EqDecision TreeState.
Proof. solve_decision. Defined.

Definition Vec3 : Type := (R * R * R)%type.

(** [DualPosition]: one ornament instance. *)
Record DualPosition : Type := mkDualPosition {
  scatter : Vec3;
  tree : Vec3;
  scale : R;
  rotation : Vec3
}.

(* ===================================================================== *)
(** * src/store.ts *)
(* ===================================================================== *)

Module Store.

Record AppState : Type := mkAppState {
  treeState : TreeState;
  isMorphing : bool
}.

(** The state [create] is called with. *)
Definition initial : AppState :=
  {| treeState := SCATTERED; isMorphing := false |}.

(** [toggleState: () => set((state) => ({ treeState: ..., isMorphing: true }))] *)
Definition toggleState (state : AppState) : AppState :=
  {| treeState :=
       if decide (treeState state = TREE_SHAPE) then SCATTERED else TREE_SHAPE;
     isMorphing := true |}.

(** [setMorphing: (isMorphing) => set({ isMorphing })]: zustand merges the
    partial state, so [treeState] is kept. *)
Definition setMorphing (b : bool) (state : AppState) : AppState :=
  {| treeState := treeState state; isMorphing := b |}.

End Store.

(* ===================================================================== *)
(** * Library functions the components call *)
(* ===================================================================== *)

(** [THREE.MathUtils.lerp(x, y, t)], as three.js defines it:
    [return (1 - t) * x + t * y]. *)
Module MathUtils.
Definition lerp (x y t : R) : R := (1 - t) * x + t * y.
End MathUtils.

(** The [Math] functions without a counterpart of the same name in the
    real-number library. *)
Module JSMath.

(** [Math.cbrt]: the real cube root, odd in its argument. *)
Definition cbrt (x : R) : R :=
  match total_order_T 0 x with
  | inleft (left _) => Rpower x (/ 3)
  | inleft (right _) => 0
  | inright _ => - Rpower (- x) (/ 3)
  end.

(** [Math.pow(b, 3)] and GLSL [pow(b, 3.0)] on a non-negative base. *)
Definition pow3 (b : R) : R := b ^ 3.

End JSMath.

(** [Math.random()] made explicit: the [k]-th call of a run returns
    [rng k]; a generator threads the number of calls made so far. *)
Module Random.

Definition Source : Type := nat -> R.

Definition Gen (A : Type) : Type := Source -> nat -> A * nat.

Definition ret {A : Type} (a : A) : Gen A := fun _ k => (a, k).

Definition bind {A B : Type} (c : Gen A) (f : A -> Gen B) : Gen B :=
  fun rng k => let '(a, k') := c rng k in f a rng k'.

Definition random : Gen R := fun rng k => (rng k, S k).

Definition run {A : Type} (c : Gen A) (rng : Source) : A := fst (c rng 0%nat).

(** [Math.random()] returns a number in [[0, 1)]. *)
Definition unit_interval (rng : Source) : Prop := forall k : nat, 0 <= rng k < 1.

End Random.

Notation "x <~ c1 ;; c2" := (Random.bind c1 (fun x => c2))
  (at level 100, c1 at next level, right associativity).

(** Euclidean norm of a position, and the distance of a position from the
    vertical ([y]) axis. *)
Definition norm3 (v : Vec3) : R :=
  let '(x, y, z) := v in sqrt (x * x + y * y + z * z).

Definition axis_distance (v : Vec3) : R :=
  let '(x, _, z) := v in sqrt (x * x + z * z).

(** The host's per-frame inputs: the store's [treeState] as the component
    last rendered with, [state.clock.elapsedTime] and [delta]. *)
Record Frame : Type := mkFrame {
  frameTree : TreeState;
  elapsedTime : R;
  delta : R
}.

(** [treeState === TreeState.TREE_SHAPE ? 1 : 0] *)
Definition target_of (ts : TreeState) : R :=
  if decide (ts = TREE_SHAPE) then 1 else 0.

(* ===================================================================== *)
(** * Foliage (src/unnamed/part_000, second file) *)
(* ===================================================================== *)

Module Foliage.

(** ** The vertex shader *)

Record Uniforms : Type := mkUniforms {
  uTime : R;
  uProgress : R
}.

Record Attributes : Type := mkAttributes {
  aScatterPos : Vec3;
  aTreePos : Vec3;
  aRandom : R
}.

(** [float easeInOutCubic(float x)].  GLSL defines [pow] on a non-negative
    base only: the second branch is the shader's value for [x <= 1]. *)
Definition easeInOutCubic (x : R) : R :=
  if Rlt_dec x 0.5 then 4.0 * x * x * x
  else 1.0 - JSMath.pow3 (-2.0 * x + 2.0) / 2.0.

(** GLSL [mix(x, y, a)] is [x * (1 - a) + y * a], component-wise on vectors. *)
Definition mix (x y a : R) : R := x * (1 - a) + y * a.

Definition mix3 (p q : Vec3) (a : R) : Vec3 :=
  let '(px, py, pz) := p in
  let '(qx, qy, qz) := q in
  (mix px qx a, mix py qy a, mix pz qz a).

Definition breath (u : Uniforms) (a : Attributes) : R :=
  sin (uTime u * 2.0 + aRandom a * 10.0) * 0.05.

Definition turbulence (u : Uniforms) (a : Attributes) : R :=
  let easedProgress := easeInOutCubic (uProgress u) in
  sin (uTime u + fst (fst (aScatterPos a))) * 0.1 * (1.0 - easedProgress).

Definition drift (u : Uniforms) (a : Attributes) : R :=
  cos (uTime u * 1.5 + aRandom a) * 0.02.

(** [finalPos] of [main()], as handed to [modelViewMatrix]. *)
Definition finalPos (u : Uniforms) (a : Attributes) : Vec3 :=
  let easedProgress := easeInOutCubic (uProgress u) in
  let '(fx, fy, fz) := mix3 (aScatterPos a) (aTreePos a) easedProgress in
  let fy := fy + (breath u a + turbulence u a) in
  let fx := fx + drift u a in
  (fx, fy, fz).

Definition sizePulse (u : Uniforms) (a : Attributes) : R :=
  1.0 + sin (uTime u * 5.0 + aRandom a * 100.0) * 0.3.

(** ** Layout generation ([useMemo]) *)

Definition count : nat := 15000.
Definition treeHeight : R := 14.
Definition treeRadiusBase : R := 5.

(** The four [Float32Array]s. *)
Record Buffers : Type := mkBuffers {
  positions : list R;
  scatterPos : list R;
  treePos : list R;
  randoms : list R
}.

(** [new Float32Array(n)]: [n] zeros. *)
Definition Float32Array (n : nat) : list R := replicate n 0.

Definition alloc (count : nat) : Buffers :=
  {| positions := Float32Array (count * 3);
     scatterPos := Float32Array (count * 3);
     treePos := Float32Array (count * 3);
     randoms := Float32Array count |}.

(** [a[i*3] = x; a[i*3+1] = y; a[i*3+2] = z] (a typed array ignores a
    write past its end, as [<[_:=_]>] does). *)
Definition store3 (i : nat) (v : Vec3) (a : list R) : list R :=
  let '(x, y, z) := v in
  <[(i * 3 + 2)%nat := z]> (<[(i * 3 + 1)%nat := y]> (<[(i * 3)%nat := x]> a)).

Definition scatterPoint (u1 u2 u3 : R) : Vec3 :=
  let rScatter := 15 * JSMath.cbrt u1 in
  let thetaScatter := u2 * 2 * PI in
  let phiScatter := acos (2 * u3 - 1) in
  let sx := rScatter * sin phiScatter * cos thetaScatter in
  let sy := rScatter * sin phiScatter * sin thetaScatter in
  let sz := rScatter * cos phiScatter in
  (sx, sy, sz).

Definition treePoint (i : nat) (hNorm u5 : R) : Vec3 :=
  let h := (hNorm * treeHeight) - (treeHeight / 2) in
  let currentRadius := (1 - hNorm) * treeRadiusBase in
  let angle := INR i * 137.5 * (PI / 180) in
  let rOffset := (u5 - 0.5) * 0.5 in
  let tx := cos angle * (currentRadius + rOffset) in
  let tz := sin angle * (currentRadius + rOffset) in
  let ty := h in
  (tx, ty, tz).

(** One iteration of [for (let i = 0; i < count; i++)].  The stores keep
    the real value: the rounding of a [Float32Array] to single precision
    is not modelled. *)
Definition body (i : nat) (b : Buffers) : Random.Gen Buffers :=
  u1 <~ Random.random ;;
  u2 <~ Random.random ;;
  u3 <~ Random.random ;;
  let s := scatterPoint u1 u2 u3 in
  hNorm <~ Random.random ;;
  u5 <~ Random.random ;;
  let t := treePoint i hNorm u5 in
  u6 <~ Random.random ;;
  Random.ret
    {| positions := store3 i s (positions b);
       scatterPos := store3 i s (scatterPos b);
       treePos := store3 i t (treePos b);
       randoms := <[i := u6]> (randoms b) |}.

(** The loop, [n] iterations from index [i]. *)
Fixpoint loop (n i : nat) (b : Buffers) : Random.Gen Buffers :=
  match n with
  | O => Random.ret b
  | S n' => b' <~ body i b ;; loop n' (S i) b'
  end.

Definition generate (count : nat) : Random.Gen Buffers :=
  loop count 0 (alloc count).

(** The [i]-th vertex a buffer triple describes. *)
Definition vec3_at (a : list R) (i : nat) : option Vec3 :=
  match a !! (i * 3)%nat, a !! (i * 3 + 1)%nat, a !! (i * 3 + 2)%nat with
  | Some x, Some y, Some z => Some (x, y, z)
  | _, _, _ => None
  end.

(** ** [useFrame] *)

Record State : Type := mkState {
  progressRef : R;
  shaderRef : option Uniforms
}.

(** [useRef(0)], before and after the material is mounted. *)
Definition unmounted : State :=
  {| progressRef := 0; shaderRef := None |}.

Definition mounted : State :=
  {| progressRef := 0; shaderRef := Some {| uTime := 0; uProgress := 0 |} |}.

Definition useFrame (f : Frame) (s : State) : State :=
  match shaderRef s with
  | Some _ =>
      let target := target_of (frameTree f) in
      let p := MathUtils.lerp (progressRef s) target (delta f * 1.5) in
      {| progressRef := p;
         shaderRef := Some {| uTime := elapsedTime f; uProgress := p |} |}
  | None => s
  end.

(** The frames of a run, oldest first. *)
Definition run (frames : list Frame) (s : State) : State :=
  fold_left (fun s f => useFrame f s) frames s.

End Foliage.

(* ===================================================================== *)
(** * Ornaments (src/components/Experience.tsx, second file) *)
(* ===================================================================== *)

Module Ornaments.

(** [type: 'box' | 'sphere'] *)
Inductive Kind : Type :=
| box
| sphere.

(** ** [useDualStateInstances] *)

Definition treeHeight : R := 12.
Definition treeRadiusBase : R := 4.5.

Definition treePoint (hNorm u2 : R) : Vec3 :=
  let h := (hNorm * treeHeight) - (treeHeight / 2) in
  let currentRadius := ((1 - hNorm) * treeRadiusBase) + 0.2 in
  let angle := u2 * PI * 2 in
  let tx := cos angle * currentRadius in
  let tz := sin angle * currentRadius in
  let ty := h in
  (tx, ty, tz).

Definition rScatter (u3 : R) : R := 10 + u3 * 10.

Definition scatterPoint (u3 u4 u5 : R) : Vec3 :=
  let r := rScatter u3 in
  let theta := u4 * 2 * PI in
  let phi := acos (2 * u5 - 1) in
  let sx := r * sin phi * cos theta in
  let sy := r * sin phi * sin theta in
  let sz := r * cos phi in
  (sx, sy, sz).

Definition scaleOf (type : Kind) (u6 : R) : R :=
  match type with
  | box => 0.3 + u6 * 0.4
  | sphere => 0.2 + u6 * 0.3
  end.

(** One iteration of the loop: [data.push({...})]. *)
Definition body (type : Kind) (data : list DualPosition)
  : Random.Gen (list DualPosition) :=
  hNorm <~ Random.random ;;
  u2 <~ Random.random ;;
  let t := treePoint hNorm u2 in
  u3 <~ Random.random ;;
  u4 <~ Random.random ;;
  u5 <~ Random.random ;;
  let s := scatterPoint u3 u4 u5 in
  u6 <~ Random.random ;;
  let scale := scaleOf type u6 in
  u7 <~ Random.random ;;
  u8 <~ Random.random ;;
  Random.ret
    (data ++ [ {| tree := t;
                  scatter := s;
                  scale := scale;
                  rotation := (u7 * PI, u8 * PI, 0) |} ]).

Fixpoint loop (n : nat) (type : Kind) (data : list DualPosition)
  : Random.Gen (list DualPosition) :=
  match n with
  | O => Random.ret data
  | S n' => data' <~ body type data ;; loop n' type data'
  end.

Definition useDualStateInstances (count : nat) (type : Kind)
  : Random.Gen (list DualPosition) :=
  loop count type [].

(** ** [InstancedOrnaments] *)

(** An instance matrix, kept as the position, Euler rotation and scale
    that [tempObj.updateMatrix()] composes it from. *)
Record Matrix4 : Type := compose {
  position : Vec3;
  euler : Vec3;
  scaling : Vec3
}.

Record InstancedMesh : Type := mkInstancedMesh {
  instanceMatrix : list Matrix4;
  needsUpdate : bool
}.

Record State : Type := mkState {
  progressRef : R;
  meshRef : option InstancedMesh
}.

(** [meshRef.current!.setMatrixAt(i, tempObj.matrix)] *)
Definition setMatrixAt (i : nat) (m : Matrix4) (ms : list Matrix4) : list Matrix4 :=
  <[i := m]> ms.

(** [data.forEach((d, i) => ...)] over the instance matrices, from index [i]. *)
Fixpoint forEach (f : DualPosition -> nat -> Matrix4) (i : nat)
    (data : list DualPosition) (ms : list Matrix4) : list Matrix4 :=
  match data with
  | [] => ms
  | d :: rest => forEach f (S i) rest (setMatrixAt i (f d i) ms)
  end.

(** The body of [useLayoutEffect]'s loop. *)
Definition initialInstance (d : DualPosition) (i : nat) : Matrix4 :=
  {| position := scatter d;
     euler := rotation d;
     scaling := (scale d, scale d, scale d) |}.

Definition useLayoutEffect (data : list DualPosition) (s : State) : State :=
  match meshRef s with
  | None => s
  | Some mesh =>
      {| progressRef := progressRef s;
         meshRef := Some {| instanceMatrix :=
                              forEach initialInstance 0 data (instanceMatrix mesh);
                            needsUpdate := true |} |}
  end.

Definition lerpSpeed (type : Kind) : R :=
  match type with
  | box => 1.0
  | sphere => 1.5
  end.

(** The [if (Math.abs(progressRef.current - target) < 0.001) ... else ...]. *)
Definition updateProgress (type : Kind) (target delta p : R) : R :=
  if Rlt_dec (Rabs (p - target)) 0.001 then target
  else MathUtils.lerp p target (delta * lerpSpeed type).

(** [const eased = p < 0.5 ? 4 * p * p * p : 1 - Math.pow(-2 * p + 2, 3) / 2] *)
Definition eased (p : R) : R :=
  if Rlt_dec p 0.5 then 4 * p * p * p
  else 1 - JSMath.pow3 (-2 * p + 2) / 2.

(** The body of [useFrame]'s loop. *)
Definition frameInstance (eased time : R) (d : DualPosition) (i : nat) : Matrix4 :=
  let '(s0, s1, s2) := scatter d in
  let '(t0, t1, t2) := tree d in
  let '(r0, r1, r2) := rotation d in
  let cx := MathUtils.lerp s0 t0 eased in
  let cy := MathUtils.lerp s1 t1 eased in
  let cz := MathUtils.lerp s2 t2 eased in
  let rotX := r0 + time * 0.1 in
  let rotY := r1 + time * 0.2 in
  let scaleMult := 1.0 + (eased * 0.1 * sin (time + INR i)) in
  {| position := (cx, cy, cz);
     euler := (rotX, rotY, r2);
     scaling := (scale d * scaleMult, scale d * scaleMult, scale d * scaleMult) |}.

Definition useFrame (type : Kind) (data : list DualPosition)
    (f : Frame) (s : State) : State :=
  match meshRef s with
  | None => s
  | Some mesh =>
      let target := target_of (frameTree f) in
      let p := updateProgress type target (delta f) (progressRef s) in
      let e := eased p in
      {| progressRef := p;
         meshRef :=
           Some {| instanceMatrix :=
                     forEach (frameInstance e (elapsedTime f)) 0 data
                             (instanceMatrix mesh);
                   needsUpdate := true |} |}
  end.

Definition run (type : Kind) (data : list DualPosition)
    (frames : list Frame) (s : State) : State :=
  fold_left (fun s f => useFrame type data f s) frames s.

End Ornaments.

(* ===================================================================== *)
(** * The progress update in IEEE-754 double arithmetic *)
(* ===================================================================== *)

Module Binary64.

Import PrimFloat.
Local Open Scope float_scope.

Definition lerp (x y t : float) : float := (1 - t) * x + t * y.

Definition target_of (ts : TreeState) : float :=
  if decide (ts = TREE_SHAPE) then 1 else 0.

(** The progress line of [Foliage.useFrame]. *)
Definition foliageProgress (ts : TreeState) (delta p : float) : float :=
  lerp p (target_of ts) (delta * 1.5).

Fixpoint iterate (n : nat) (step : float -> float) (p : float) : float :=
  match n with
  | O => p
  | S k => iterate k step (step p)
  end.

(** The doubles nearest to the decimal literals [0.016] and [0.99]. *)
Definition d0_016 : float := 0x1.0624dd2f1a9fcp-6.
Definition d0_99 : float := 0x1.fae147ae147aep-1.

(** Foliage progress after [n] frames of [delta = 0.016] toward the tree,
    from [useRef(0)]. *)
Definition foliageAfter (n : nat) : float :=
  iterate n (foliageProgress TREE_SHAPE d0_016) 0.

(** One frame of [delta = 1] toward the tree, from [useRef(0)]. *)
Definition foliageLongFrame : float := foliageProgress TREE_SHAPE 1 0.

End Binary64.

(* ===================================================================== *)
(** * Runs and reference formulas used in the statements *)
(* ===================================================================== *)

(** [n] frames at a constant [delta] and a constant [treeState]; the frame
    of index [k] ends at clock time [(k + 1) * delta]. *)
Definition steady (ts : TreeState) (delta : R) (start n : nat) : list Frame :=
  map (fun k => mkFrame ts (INR (S k) * delta) delta) (seq start n).

(** [n] frames toward the tree followed by [n] frames back to the cloud. *)
Definition roundTrip (n : nat) (delta : R) : list Frame :=
  steady TREE_SHAPE delta 0 n ++ steady SCATTERED delta n n.

(** What the layout loops compute for the element of index [i]: the
    foliage loop draws six samples per iteration, the ornament loop eight. *)
Definition foliageScatterAt (rng : Random.Source) (i : nat) : Vec3 :=
  Foliage.scatterPoint (rng (6 * i)%nat) (rng (6 * i + 1)%nat) (rng (6 * i + 2)%nat).

Definition foliageTreeAt (rng : Random.Source) (i : nat) : Vec3 :=
  Foliage.treePoint i (rng (6 * i + 3)%nat) (rng (6 * i + 4)%nat).

Definition ornamentAt (type : Ornaments.Kind) (rng : Random.Source) (i : nat)
  : DualPosition :=
  {| tree := Ornaments.treePoint (rng (8 * i)%nat) (rng (8 * i + 1)%nat);
     scatter := Ornaments.scatterPoint (rng (8 * i + 2)%nat) (rng (8 * i + 3)%nat)
                  (rng (8 * i + 4)%nat);
     scale := Ornaments.scaleOf type (rng (8 * i + 5)%nat);
     rotation := (rng (8 * i + 6)%nat * PI, rng (8 * i + 7)%nat * PI, 0) |}.

(** The specification's formulas, to compare the code with. *)
Module Spec.

(** [progress + (target - progress) * (1 - exp(-lerpRate * delta))] *)
Definition exponentialApproach (progress target lerpRate delta : R) : R :=
  progress + (target - progress) * (1 - exp (- lerpRate * delta)).

(** [progress + (target - progress) * (lerpRate * delta)] *)
Definition naiveApproach (progress target lerpRate delta : R) : R :=
  progress + (target - progress) * (lerpRate * delta).

(** [eased(p)] *)
Definition eased (p : R) : R :=
  if Rlt_dec p 0.5 then 4 * p ^ 3 else 1 - (-2 * p + 2) ^ 3 / 2.

(** [lerp(a, b, t) = a + (b - a) * t] *)
Definition lerp (a b t : R) : R := a + (b - a) * t.

(** The foliage position with the turbulence on a horizontal coordinate:
    [x] when [onX], [z] otherwise. *)
Definition foliagePosition (onX : bool) (t progress seed : R)
    (scatterPosition treePosition : Vec3) : Vec3 :=
  let '(sx, sy, sz) := scatterPosition in
  let '(tx, ty, tz) := treePosition in
  let e := eased progress in
  let breathing := 0.05 * sin (2 * t + seed * 10) in
  let turbulence := 0.1 * sin (t + sx) * (1 - e) in
  let drift := 0.02 * cos (1.5 * t + seed) in
  (lerp sx tx e + drift + (if onX then turbulence else 0),
   lerp sy ty e + breathing,
   lerp sz tz e + (if onX then 0 else turbulence)).

(** Spherical coordinates to Cartesian, polar angle [phi] from the third
    axis. *)
Definition spherical (r theta phi : R) : Vec3 :=
  (r * sin phi * cos theta, r * sin phi * sin theta, r * cos phi).

(** [r = R * cbrt(u)], [theta = 2 PI u2], [phi = acos(2 u3 - 1)]. *)
Definition scatterSample (R0 u u2 u3 : R) : Vec3 :=
  spherical (R0 * JSMath.cbrt u) (2 * PI * u2) (acos (2 * u3 - 1)).

End Spec.

(* ===================================================================== *)
(** * The rest of the scene code *)
(* ===================================================================== *)

(** [Rig] (src/components/Experience.tsx, first file): the camera drift.
    Only [camera.position] is touched; [OrbitControls] is outside. *)
Module Rig.

(** [<PerspectiveCamera makeDefault position={[0, 0, 30]} />] *)
Definition initialPosition : Vec3 := (0, 0, 30).

Definition targetZ (ts : TreeState) : R :=
  if decide (ts = TREE_SHAPE) then 25 else 35.

Definition targetY (ts : TreeState) : R :=
  if decide (ts = TREE_SHAPE) then 0 else 5.

(** The [useFrame] callback, on [camera.position]. *)
Definition useFrame (f : Frame) (position : Vec3) : Vec3 :=
  let targetZ := targetZ (frameTree f) in
  let targetY := targetY (frameTree f) in
  if decide (frameTree f = TREE_SHAPE) then
    let '(x, y, z) := position in
    (x, MathUtils.lerp y targetY (delta f * 0.5), z)
  else position.

Definition run (frames : list Frame) (position : Vec3) : Vec3 :=
  fold_left (fun p f => useFrame f p) frames position.

End Rig.

(** [UI] (src/unnamed/part_000, first file): the button. *)
Module UI.

Definition isTree (s : Store.AppState) : bool :=
  bool_decide (Store.treeState s = TREE_SHAPE).

(** [{isTree ? "Release Magic" : "Summon Tree"}] *)
Definition buttonLabel (s : Store.AppState) : string :=
  if isTree s then "Release Magic"%string else "Summon Tree"%string.

(** [onClick={toggleState}] *)
Definition onClick (s : Store.AppState) : Store.AppState := Store.toggleState s.

End UI.

(** The parts of the foliage shaders beside [finalPos]: the point size of
    the vertex shader and the alpha channel of the fragment shader. *)
Module FoliageSprite.

(** [gl_PointSize = (40.0 * sizePulse) * (1.0 / -mvPosition.z)], with
    [mvz] the view-space depth [mvPosition.z]. *)
Definition pointSize (u : Foliage.Uniforms) (a : Foliage.Attributes) (mvz : R) : R :=
  (40.0 * Foliage.sizePulse u a) * (1.0 / - mvz).

(** GLSL [clamp(x, minVal, maxVal)] is [min(max(x, minVal), maxVal)]. *)
Definition clamp (x minVal maxVal : R) : R := Rmin (Rmax x minVal) maxVal.

(** GLSL [smoothstep(edge0, edge1, x)], defined for [edge0 < edge1]. *)
Definition smoothstep (edge0 edge1 x : R) : R :=
  let t := clamp ((x - edge0) / (edge1 - edge0)) 0.0 1.0 in
  t * t * (3.0 - 2.0 * t).

(** [length(gl_PointCoord - 0.5)] *)
Definition dist (pointCoord : R * R) : R :=
  let '(px, py) := pointCoord in
  sqrt ((px - 0.5) * (px - 0.5) + (py - 0.5) * (py - 0.5)).

(** The fragment's alpha: [None] when [discard]ed, else
    [1.0 - smoothstep(0.4, 0.5, dist)]. *)
Definition fragmentAlpha (pointCoord : R * R) : option R :=
  let dist := dist pointCoord in
  if Rgt_dec dist 0.5 then None
  else Some (1.0 - smoothstep 0.4 0.5 dist).

End FoliageSprite.

(** [n] calls of [toggleState]. *)
Definition toggles (n : nat) (s : Store.AppState) : Store.AppState :=
  Nat.iter n Store.toggleState s.

(* ===================================================================== *)
(** * Properties of the store *)
(* ===================================================================== *)

(** C10: two calls of [toggleState] give back the [treeState] the first
    call started from, and any single call leaves [isMorphing] true. *)
Theorem toggleState_twice_and_morphing :
  forall s : Store.AppState,
    Store.treeState (Store.toggleState (Store.toggleState s)) = Store.treeState s
    /\ Store.isMorphing (Store.toggleState s) = true.
Proof.
  intros [[] m]; split; reflexivity.
Qed.

(* ===================================================================== *)
(** * Properties of the easing curve *)
(* ===================================================================== *)

Section Easing.

Lemma cube_le (a b : R) : 0 <= a <= b -> a ^ 3 <= b ^ 3.
Proof. intros [Ha Hab]. apply pow_incr. lra. Qed.

(** The shader's function and the ornaments' inline expression are the
    same curve, the one the specification writes. *)
Lemma easeInOutCubic_eased (x : R) : Foliage.easeInOutCubic x = Ornaments.eased x.
Proof.
  unfold Foliage.easeInOutCubic, Ornaments.eased, JSMath.pow3.
  destruct (Rlt_dec x 0.5); lra.
Qed.

Lemma eased_spec (p : R) : Ornaments.eased p = Spec.eased p.
Proof.
  unfold Ornaments.eased, Spec.eased, JSMath.pow3.
  destruct (Rlt_dec p 0.5); lra.
Qed.

Lemma eased_0 : Ornaments.eased 0 = 0.
Proof. unfold Ornaments.eased. destruct (Rlt_dec 0 0.5); lra. Qed.

Lemma eased_1 : Ornaments.eased 1 = 1.
Proof. unfold Ornaments.eased, JSMath.pow3. destruct (Rlt_dec 1 0.5); lra. Qed.

Lemma eased_half : Ornaments.eased 0.5 = 0.5.
Proof. unfold Ornaments.eased, JSMath.pow3. destruct (Rlt_dec 0.5 0.5); lra. Qed.

(** Each branch is a monotone cubic, and the first stays below [1/2]
    where the second starts. *)
Lemma eased_monotone (p q : R) :
  0 <= p -> p <= q -> q <= 1 -> Ornaments.eased p <= Ornaments.eased q.
Proof.
  intros Hp Hpq Hq. unfold Ornaments.eased, JSMath.pow3.
  destruct (Rlt_dec p 0.5) as [Hp5|Hp5], (Rlt_dec q 0.5) as [Hq5|Hq5].
  - pose proof (cube_le p q (conj Hp Hpq)). lra.
  - pose proof (cube_le p 0.5 ltac:(lra)).
    pose proof (cube_le (-2 * q + 2) 1 ltac:(lra)). lra.
  - lra.
  - pose proof (cube_le (-2 * q + 2) (-2 * p + 2) ltac:(lra)). lra.
Qed.

Lemma eased_unit (p : R) : 0 <= p <= 1 -> 0 <= Ornaments.eased p <= 1.
Proof.
  intros [H0 H1]. split.
  - rewrite <- eased_0. apply eased_monotone; lra.
  - rewrite <- eased_1. apply eased_monotone; lra.
Qed.

End Easing.

(** C8: the cubic ease-in-out, in the shader and in the ornaments' frame
    callback, is [4p^3] below [1/2] and [1 - (-2p+2)^3/2] from there on; it
    maps 0 to 0, 1 to 1 and 1/2 to 1/2, and does not decrease on [[0,1]]. *)
Theorem eased_fixed_points_and_monotone :
  (forall p : R, Ornaments.eased p = Spec.eased p
                 /\ Foliage.easeInOutCubic p = Spec.eased p)
  /\ (Ornaments.eased 0 = 0 /\ Ornaments.eased 1 = 1 /\ Ornaments.eased 0.5 = 0.5)
  /\ (Foliage.easeInOutCubic 0 = 0 /\ Foliage.easeInOutCubic 1 = 1
      /\ Foliage.easeInOutCubic 0.5 = 0.5)
  /\ (forall p q : R, 0 <= p -> p <= q -> q <= 1 ->
        Ornaments.eased p <= Ornaments.eased q
        /\ Foliage.easeInOutCubic p <= Foliage.easeInOutCubic q).
Proof.
  repeat split; rewrite ?easeInOutCubic_eased;
    auto using eased_spec, eased_0, eased_1, eased_half, eased_monotone.
Qed.

(** The curve at a quarter and at three quarters of the way. *)
Lemma eased_fixed_points_and_monotone_witness :
  Ornaments.eased 0.25 <= Ornaments.eased 0.75
  /\ Foliage.easeInOutCubic 0.25 <= Foliage.easeInOutCubic 0.75.
Proof.
  apply (proj2 (proj2 (proj2 eased_fixed_points_and_monotone)) 0.25 0.75); lra.
Defined.

(* ===================================================================== *)
(** * Properties of the per-frame progress update *)
(* ===================================================================== *)

Section Progress.

Lemma target_of_cases (ts : TreeState) : target_of ts = 0 \/ target_of ts = 1.
Proof. destruct ts; unfold target_of; case_decide; auto; congruence. Qed.

Lemma target_of_tree : target_of TREE_SHAPE = 1.
Proof. reflexivity. Qed.

Lemma target_of_scattered : target_of SCATTERED = 0.
Proof. reflexivity. Qed.

(** three.js' [lerp] is the specification's [a + (b - a) * t]. *)
Lemma lerp_spec (x y t : R) : MathUtils.lerp x y t = Spec.lerp x y t.
Proof. unfold MathUtils.lerp, Spec.lerp. ring. Qed.

(** A step with a weight in [[0,1]] toward 0 or 1 stays in [[0,1]]. *)
Lemma lerp_unit (p T t : R) :
  0 <= p <= 1 -> T = 0 \/ T = 1 -> 0 <= t <= 1 ->
  0 <= MathUtils.lerp p T t <= 1.
Proof. unfold MathUtils.lerp. intros Hp [-> | ->] Ht; nra. Qed.

Lemma updateProgress_unit (type : Ornaments.Kind) (T d p : R) :
  0 <= p <= 1 -> T = 0 \/ T = 1 -> 0 <= d * Ornaments.lerpSpeed type <= 1 ->
  0 <= Ornaments.updateProgress type T d p <= 1.
Proof.
  intros Hp HT Hd. unfold Ornaments.updateProgress.
  destruct (Rlt_dec _ _).
  - destruct HT as [-> | ->]; lra.
  - apply lerp_unit; auto.
Qed.

(** ** Foliage *)

Lemma foliage_useFrame_mounted (f : Frame) (p : R) (u : Foliage.Uniforms) :
  Foliage.useFrame f (Foliage.mkState p (Some u)) =
  let p' := MathUtils.lerp p (target_of (frameTree f)) (delta f * 1.5) in
  Foliage.mkState p' (Some (Foliage.mkUniforms (elapsedTime f) p')).
Proof. reflexivity. Qed.

Lemma foliage_run_unmounted (frames : list Frame) (p : R) :
  Foliage.run frames (Foliage.mkState p None) = Foliage.mkState p None.
Proof. induction frames as [|f frames IH]; [reflexivity | exact IH]. Qed.

Lemma foliage_run_app (fs gs : list Frame) (s : Foliage.State) :
  Foliage.run (fs ++ gs) s = Foliage.run gs (Foliage.run fs s).
Proof. unfold Foliage.run. apply fold_left_app. Qed.

Lemma foliage_run_unit (frames : list Frame) (s : Foliage.State) :
  Forall (fun f => 0 <= delta f * 1.5 <= 1) frames ->
  0 <= Foliage.progressRef s <= 1 ->
  0 <= Foliage.progressRef (Foliage.run frames s) <= 1.
Proof.
  intros Hfs. revert s.
  induction Hfs as [|f frames Hf _ IH]; intros s Hs; [exact Hs|].
  cbn. apply IH. destruct s as [p [u|]]; [|exact Hs].
  rewrite foliage_useFrame_mounted. cbn.
  apply lerp_unit; [exact Hs | apply target_of_cases | exact Hf].
Qed.

Lemma steady_S (ts : TreeState) (d : R) (k n : nat) :
  steady ts d k (S n) = mkFrame ts (INR (S k) * d) d :: steady ts d (S k) n.
Proof. reflexivity. Qed.

Lemma steady_deltas (ts : TreeState) (d : R) (k n : nat) (P : R -> Prop) :
  P d -> Forall (fun f => P (delta f)) (steady ts d k n).
Proof.
  intros Hd. revert k. induction n as [|n IH]; intros k.
  - constructor.
  - rewrite steady_S. constructor; [exact Hd | apply IH].
Qed.

(** [n] frames at a constant [delta] toward a constant target close the
    gap to the target by the factor [(1 - 1.5 * delta)^n]. *)
Lemma foliage_steady (ts : TreeState) (d : R) (n k : nat) (p : R)
    (u : Foliage.Uniforms) :
  Foliage.progressRef (Foliage.run (steady ts d k n) (Foliage.mkState p (Some u))) =
  target_of ts - (target_of ts - p) * (1 - d * 1.5) ^ n.
Proof.
  revert k p u. induction n as [|n IH]; intros k p u.
  - cbn. ring.
  - rewrite steady_S. cbn [Foliage.run fold_left].
    rewrite foliage_useFrame_mounted. cbn zeta.
    change (fold_left _ ?l ?s) with (Foliage.run l s).
    rewrite IH. cbn [frameTree delta]. unfold MathUtils.lerp.
    rewrite <- tech_pow_Rmult. ring.
Qed.

(** ** Ornaments *)

Lemma ornaments_useFrame_progress (type : Ornaments.Kind)
    (data : list DualPosition) (f : Frame) (p : R) (mesh : Ornaments.InstancedMesh) :
  Ornaments.progressRef
    (Ornaments.useFrame type data f (Ornaments.mkState p (Some mesh))) =
  Ornaments.updateProgress type (target_of (frameTree f)) (delta f) p.
Proof. reflexivity. Qed.

Lemma ornaments_useFrame_mesh (type : Ornaments.Kind)
    (data : list DualPosition) (f : Frame) (s : Ornaments.State) :
  is_Some (Ornaments.meshRef (Ornaments.useFrame type data f s)) <->
  is_Some (Ornaments.meshRef s).
Proof.
  destruct s as [p [mesh|]]; cbn; split; intros H; try exact H; eauto.
Qed.

Lemma ornaments_run_unmounted (type : Ornaments.Kind) (data : list DualPosition)
    (frames : list Frame) (p : R) :
  Ornaments.run type data frames (Ornaments.mkState p None) =
  Ornaments.mkState p None.
Proof. induction frames as [|f frames IH]; [reflexivity | exact IH]. Qed.

Lemma ornaments_run_app (type : Ornaments.Kind) (data : list DualPosition)
    (fs gs : list Frame) (s : Ornaments.State) :
  Ornaments.run type data (fs ++ gs) s =
  Ornaments.run type data gs (Ornaments.run type data fs s).
Proof. unfold Ornaments.run. apply fold_left_app. Qed.

Lemma ornaments_run_unit (type : Ornaments.Kind) (data : list DualPosition)
    (frames : list Frame) (s : Ornaments.State) :
  Forall (fun f => 0 <= delta f * Ornaments.lerpSpeed type <= 1) frames ->
  0 <= Ornaments.progressRef s <= 1 ->
  0 <= Ornaments.progressRef (Ornaments.run type data frames s) <= 1.
Proof.
  intros Hfs. revert s.
  induction Hfs as [|f frames Hf _ IH]; intros s Hs; [exact Hs|].
  cbn. apply IH. destruct s as [p [mesh|]]; [|exact Hs].
  rewrite ornaments_useFrame_progress.
  apply updateProgress_unit; [exact Hs | apply target_of_cases | exact Hf].
Qed.

(** Toward the cloud, a frame either snaps to 0 or scales progress by
    [1 - delta * lerpSpeed]. *)
Lemma ornaments_steady_down (type : Ornaments.Kind) (data : list DualPosition)
    (d : R) (n k : nat) (s : Ornaments.State) :
  0 <= d * Ornaments.lerpSpeed type <= 1 ->
  is_Some (Ornaments.meshRef s) ->
  0 <= Ornaments.progressRef s ->
  0 <= Ornaments.progressRef (Ornaments.run type data (steady SCATTERED d k n) s)
    <= Ornaments.progressRef s * (1 - d * Ornaments.lerpSpeed type) ^ n.
Proof.
  intros Hd. revert k s. induction n as [|n IH]; intros k s Hm Hp.
  - cbn. lra.
  - rewrite steady_S. cbn [Ornaments.run fold_left].
    change (fold_left _ ?l ?s) with (Ornaments.run type data l s).
    set (s1 := Ornaments.useFrame _ _ _ s).
    assert (H1 : 0 <= Ornaments.progressRef s1
                 <= Ornaments.progressRef s * (1 - d * Ornaments.lerpSpeed type)).
    { subst s1. destruct Hm as [mesh Hm]. destruct s as [p m]. cbn in Hm, Hp |- *.
      subst m. cbn. rewrite target_of_scattered.
      unfold Ornaments.updateProgress, MathUtils.lerp.
      destruct (Rlt_dec _ _); nra. }
    destruct (IH (S k) s1) as [Hlo Hhi];
      [apply ornaments_useFrame_mesh; exact Hm | lra |].
    split; [exact Hlo|].
    eapply Rle_trans; [exact Hhi|].
    rewrite <- tech_pow_Rmult.
    assert (Hpow : 0 <= (1 - d * Ornaments.lerpSpeed type) ^ n)
      by (apply pow_le; lra).
    nra.
Qed.

Lemma ornaments_run_mesh (type : Ornaments.Kind) (data : list DualPosition)
    (frames : list Frame) (s : Ornaments.State) :
  is_Some (Ornaments.meshRef s) ->
  is_Some (Ornaments.meshRef (Ornaments.run type data frames s)).
Proof.
  revert s. induction frames as [|f frames IH]; intros s Hs; [exact Hs|].
  cbn. apply IH, ornaments_useFrame_mesh, Hs.
Qed.

(** ** The scenario's numbers *)

Lemma pow_0976_300 : (1 - 0.016 * 1.5) ^ 300 < 0.01.
Proof.
  assert (H : 100 * IZR 122 ^ 300 < IZR 125 ^ 300).
  { rewrite !pow_IZR, <- mult_IZR. apply IZR_lt. vm_compute. reflexivity. }
  replace (1 - 0.016 * 1.5) with (IZR 122 * / IZR 125) by lra.
  rewrite Rpow_mult_distr, pow_inv.
  assert (HQ : 0 < IZR 125 ^ 300) by (apply pow_lt; lra).
  set (P := IZR 122 ^ 300) in *. set (Q := IZR 125 ^ 300) in *.
  apply (Rmult_lt_reg_r Q); [lra|].
  rewrite Rmult_assoc, Rinv_l; lra.
Qed.

End Progress.

(** C1, as the code has it: in both groups the new progress is the linear
    step [progress + (target - progress) * (lerpRate * delta)], with
    [lerpRate] 1.5 for the foliage, 1.0 for boxes and 1.5 for spheres; the
    ornaments first test [|progress - target| < 0.001] and then take the
    target itself. *)
Theorem progress_update_is_linear_step :
  forall (f : Frame) (p : R) (u : Foliage.Uniforms)
         (type : Ornaments.Kind) (data : list DualPosition)
         (mesh : Ornaments.InstancedMesh),
    let target := target_of (frameTree f) in
    Foliage.progressRef (Foliage.useFrame f (Foliage.mkState p (Some u))) =
      Spec.naiveApproach p target 1.5 (delta f)
    /\ Ornaments.progressRef
         (Ornaments.useFrame type data f (Ornaments.mkState p (Some mesh))) =
       if Rlt_dec (Rabs (p - target)) 0.001 then target
       else Spec.naiveApproach p target (Ornaments.lerpSpeed type) (delta f).
Proof.
  intros f p u type data mesh target. split.
  - rewrite foliage_useFrame_mounted. cbn.
    unfold MathUtils.lerp, Spec.naiveApproach. fold target. ring.
  - rewrite ornaments_useFrame_progress. fold target.
    unfold Ornaments.updateProgress.
    destruct (Rlt_dec _ _); [reflexivity|].
    unfold MathUtils.lerp, Spec.naiveApproach. ring.
Qed.

(** C1 fails as stated: one 16 ms frame toward the tree from progress 0
    gives the linear value 0.024 in both groups, above the exponential
    formula's [1 - exp(-0.024)]. *)
Lemma progress_update_not_exponential :
  let f := mkFrame TREE_SHAPE 0.016 0.016 in
  let mesh := Ornaments.mkInstancedMesh [] false in
  Spec.exponentialApproach 0 1 1.5 0.016
    < Foliage.progressRef (Foliage.useFrame f Foliage.mounted)
  /\ Foliage.progressRef (Foliage.useFrame f Foliage.mounted)
     = Spec.naiveApproach 0 1 1.5 0.016
  /\ Spec.exponentialApproach 0 1 1.5 0.016
     < Ornaments.progressRef
         (Ornaments.useFrame Ornaments.sphere [] f (Ornaments.mkState 0 (Some mesh))).
Proof.
  cbn zeta.
  assert (He : Spec.exponentialApproach 0 1 1.5 0.016 < 0.024).
  { unfold Spec.exponentialApproach.
    match goal with
    | |- context [exp ?x] => pose proof (exp_ineq1 x ltac:(lra))
    end. lra. }
  assert (Hf : Foliage.progressRef
                 (Foliage.useFrame (mkFrame TREE_SHAPE 0.016 0.016) Foliage.mounted)
               = 0.024).
  { unfold Foliage.mounted. rewrite foliage_useFrame_mounted. cbn.
    rewrite target_of_tree. unfold MathUtils.lerp. lra. }
  rewrite Hf. repeat split.
  - exact He.
  - unfold Spec.naiveApproach. lra.
  - rewrite ornaments_useFrame_progress. cbn [frameTree delta].
    rewrite target_of_tree. unfold Ornaments.updateProgress.
    destruct (Rlt_dec _ _) as [H|H].
    + exfalso. revert H. unfold Rabs. destruct (Rcase_abs _); lra.
    + unfold MathUtils.lerp, Ornaments.lerpSpeed. lra.
Qed.

(** C2, as the code has it: there is no clamp; starting from progress 0,
    progress is in [[0,1]] after every frame of a run whose frames all have
    [0 <= lerpRate * delta <= 1] (for the foliage and the spheres
    [delta <= 2/3], for the boxes [delta <= 1]), whatever the per-frame
    targets. *)
Theorem progress_stays_in_unit_interval :
  forall (frames : list Frame) (n : nat),
    (forall s : Foliage.State,
        Forall (fun f => 0 <= delta f * 1.5 <= 1) frames ->
        Foliage.progressRef s = 0 ->
        0 <= Foliage.progressRef (Foliage.run (take n frames) s) <= 1)
    /\ (forall (type : Ornaments.Kind) (data : list DualPosition)
               (s : Ornaments.State),
           Forall (fun f => 0 <= delta f * Ornaments.lerpSpeed type <= 1) frames ->
           Ornaments.progressRef s = 0 ->
           0 <= Ornaments.progressRef
                  (Ornaments.run type data (take n frames) s) <= 1).
Proof.
  intros frames n. split.
  - intros s Hfs Hs. apply foliage_run_unit; [apply Forall_take, Hfs | lra].
  - intros type data s Hfs Hs.
    apply ornaments_run_unit; [apply Forall_take, Hfs | lra].
Qed.

(** A 16 ms frame toward the tree, then a 484 ms frame back. *)
Lemma progress_stays_in_unit_interval_witness :
  let frames := [mkFrame TREE_SHAPE 0.016 0.016; mkFrame SCATTERED 0.5 0.484] in
  Forall (fun f => 0 <= delta f * 1.5 <= 1) frames
  /\ 0 <= Foliage.progressRef (Foliage.run (take 2 frames) Foliage.mounted) <= 1.
Proof.
  cbn zeta.
  assert (H : Forall (fun f => 0 <= delta f * 1.5 <= 1)
                [mkFrame TREE_SHAPE 0.016 0.016; mkFrame SCATTERED 0.5 0.484]).
  { repeat constructor; cbn; lra. }
  split; [exact H|].
  exact (proj1 (progress_stays_in_unit_interval _ 2%nat) Foliage.mounted H eq_refl).
Defined.

(** C2 fails as stated: a single frame with [delta = 1] toward the tree
    takes the foliage progress from 0 to 1.5, in real and in double
    arithmetic alike. *)
Lemma progress_overshoots_on_long_frame :
  1 < Foliage.progressRef
        (Foliage.run [mkFrame TREE_SHAPE 1 1] Foliage.mounted)
  /\ PrimFloat.ltb PrimFloat.one Binary64.foliageLongFrame = true.
Proof.
  split.
  - cbn. rewrite target_of_tree. unfold MathUtils.lerp. lra.
  - vm_compute. reflexivity.
Qed.

Section RoundTrip.

Lemma foliage_run_mounted (frames : list Frame) (p : R) (u : Foliage.Uniforms) :
  exists (p' : R) (u' : Foliage.Uniforms),
    Foliage.run frames (Foliage.mkState p (Some u)) = Foliage.mkState p' (Some u').
Proof.
  revert p u. induction frames as [|f frames IH]; intros p u.
  - exists p, u. reflexivity.
  - cbn [Foliage.run fold_left]. rewrite foliage_useFrame_mounted. cbn zeta.
    apply IH.
Qed.

(** Up for [n] frames and down for [n] frames: whatever the start in
    [[0,1]], the foliage ends in [[0, (1 - 1.5 * delta)^n]]. *)
Lemma foliage_round_trip_bound (n : nat) (d p : R) (u : Foliage.Uniforms) :
  0 <= d * 1.5 <= 1 -> 0 <= p <= 1 ->
  0 <= Foliage.progressRef
         (Foliage.run (roundTrip n d) (Foliage.mkState p (Some u)))
    <= (1 - d * 1.5) ^ n.
Proof.
  intros Hd Hp. unfold roundTrip. rewrite foliage_run_app.
  pose proof (foliage_run_unit (steady TREE_SHAPE d 0 n)
                (Foliage.mkState p (Some u))
                (steady_deltas _ _ _ _ (fun x => 0 <= x * 1.5 <= 1) Hd) Hp) as Hq.
  destruct (foliage_run_mounted (steady TREE_SHAPE d 0 n) p u) as (q & u' & Hrun).
  rewrite Hrun in Hq |- *. cbn in Hq.
  rewrite foliage_steady, target_of_scattered.
  assert (Hpow : 0 <= (1 - d * 1.5) ^ n) by (apply pow_le; lra).
  nra.
Qed.

(** The same bound for either kind of ornament, snapping included. *)
Lemma ornaments_round_trip_bound (type : Ornaments.Kind)
    (data : list DualPosition) (n : nat) (d p : R)
    (mesh : Ornaments.InstancedMesh) :
  0 <= d * Ornaments.lerpSpeed type <= 1 -> 0 <= p <= 1 ->
  0 <= Ornaments.progressRef
         (Ornaments.run type data (roundTrip n d)
            (Ornaments.mkState p (Some mesh)))
    <= (1 - d * Ornaments.lerpSpeed type) ^ n.
Proof.
  intros Hd Hp. unfold roundTrip. rewrite ornaments_run_app.
  set (s := Ornaments.mkState p (Some mesh)).
  pose proof (ornaments_run_unit type data (steady TREE_SHAPE d 0 n) s
                (steady_deltas _ _ _ _
                   (fun x => 0 <= x * Ornaments.lerpSpeed type <= 1) Hd) Hp) as Hq.
  assert (Hm : is_Some (Ornaments.meshRef
                          (Ornaments.run type data (steady TREE_SHAPE d 0 n) s)))
    by (apply ornaments_run_mesh; cbn; eauto).
  pose proof (ornaments_steady_down type data d n n _ Hd Hm (proj1 Hq)) as [Hlo Hhi].
  split; [exact Hlo|].
  assert (Hpow : 0 <= (1 - d * Ornaments.lerpSpeed type) ^ n)
    by (apply pow_le; lra).
  nra.
Qed.

End RoundTrip.

(** C6, as the code has it: [n] frames toward the tree and [n] frames
    back, at a constant [delta] with [0 <= lerpRate * delta <= 1], bring
    progress back to within 1e-2 of its start when that start is 0 and
    [(1 - lerpRate * delta)^n] is at most 1e-2. *)
Theorem round_trip_returns_to_scattered :
  forall (n : nat) (d : R),
    (forall s : Foliage.State,
        0 <= d * 1.5 <= 1 ->
        Foliage.progressRef s = 0 ->
        (1 - d * 1.5) ^ n <= 0.01 ->
        Rabs (Foliage.progressRef (Foliage.run (roundTrip n d) s)
              - Foliage.progressRef s) <= 0.01)
    /\ (forall (type : Ornaments.Kind) (data : list DualPosition)
               (s : Ornaments.State),
           0 <= d * Ornaments.lerpSpeed type <= 1 ->
           Ornaments.progressRef s = 0 ->
           (1 - d * Ornaments.lerpSpeed type) ^ n <= 0.01 ->
           Rabs (Ornaments.progressRef (Ornaments.run type data (roundTrip n d) s)
                 - Ornaments.progressRef s) <= 0.01).
Proof.
  intros n d. split.
  - intros [p [u|]] Hd Hs Hn; cbn in Hs; subst p.
    + pose proof (foliage_round_trip_bound n d 0 u Hd ltac:(lra)) as [Hlo Hhi].
      change (Foliage.progressRef (Foliage.mkState 0 (Some u))) with 0.
      rewrite Rminus_0_r, Rabs_pos_eq; lra.
    + rewrite foliage_run_unmounted. cbn.
      rewrite Rminus_0_r, Rabs_R0. lra.
  - intros type data [p [mesh|]] Hd Hs Hn; cbn in Hs; subst p.
    + pose proof (ornaments_round_trip_bound type data n d 0 mesh Hd ltac:(lra))
        as [Hlo Hhi].
      change (Ornaments.progressRef (Ornaments.mkState 0 (Some mesh))) with 0.
      rewrite Rminus_0_r, Rabs_pos_eq; lra.
    + rewrite ornaments_run_unmounted. cbn.
      rewrite Rminus_0_r, Rabs_R0. lra.
Qed.

(** 300 frames of 16 ms each way, from the mounted foliage. *)
Lemma round_trip_returns_to_scattered_witness :
  0 <= 0.016 * 1.5 <= 1
  /\ (1 - 0.016 * 1.5) ^ 300 <= 0.01
  /\ Rabs (Foliage.progressRef (Foliage.run (roundTrip 300 0.016) Foliage.mounted)
           - Foliage.progressRef Foliage.mounted) <= 0.01.
Proof.
  assert (Hd : 0 <= 0.016 * 1.5 <= 1) by lra.
  assert (Hn : (1 - 0.016 * 1.5) ^ 300 <= 0.01) by apply Rlt_le, pow_0976_300.
  split; [exact Hd|]. split; [exact Hn|].
  exact (proj1 (round_trip_returns_to_scattered 300 0.016)
           Foliage.mounted Hd eq_refl Hn).
Defined.

(** C6 fails as stated: from progress 0, one 16 ms frame up and one down
    leave the foliage at 0.023424, and from progress 1, 300 frames up and
    300 down leave it below 0.01; both are further than 1e-2 from the
    start. *)
Lemma round_trip_does_not_return :
  0.01 < Rabs (Foliage.progressRef (Foliage.run (roundTrip 1 0.016) Foliage.mounted)
               - Foliage.progressRef Foliage.mounted)
  /\ 0.01 < Rabs (Foliage.progressRef
                    (Foliage.run (roundTrip 300 0.016)
                       (Foliage.mkState 1 (Some (Foliage.mkUniforms 0 1))))
                  - 1).
Proof.
  split.
  - cbn. rewrite target_of_tree, target_of_scattered. unfold MathUtils.lerp.
    rewrite Rabs_pos_eq; lra.
  - pose proof (foliage_round_trip_bound 300 0.016 1 (Foliage.mkUniforms 0 1)
                  ltac:(lra) ltac:(lra)) as [Hlo Hhi].
    pose proof pow_0976_300 as Hpow.
    set (x := Foliage.progressRef _) in *.
    set (a := (1 - 0.016 * 1.5) ^ 300) in *.
    rewrite Rabs_left; lra.
Qed.

(** C7: from progress 0 with the target on TREE_SHAPE, 300 frames of
    [delta = 0.016] at the foliage's rate 1.5 end above 0.99, in real
    arithmetic and in the doubles the browser computes with. *)
Theorem foliage_converges_in_300_frames :
  0.99 < Foliage.progressRef
           (Foliage.run (steady TREE_SHAPE 0.016 0 300) Foliage.mounted)
  /\ PrimFloat.ltb Binary64.d0_99 (Binary64.foliageAfter 300) = true.
Proof.
  split.
  - unfold Foliage.mounted. rewrite foliage_steady, target_of_tree.
    pose proof pow_0976_300 as Hpow.
    set (a := (1 - 0.016 * 1.5) ^ 300) in *. lra.
  - vm_compute. reflexivity.
Qed.

(* ===================================================================== *)
(** * Properties of the foliage vertex shader *)
(* ===================================================================== *)

Section Shader.

Lemma mix_spec (x y a : R) : Foliage.mix x y a = Spec.lerp x y a.
Proof. unfold Foliage.mix, Spec.lerp. ring. Qed.

Lemma easeInOutCubic_spec (x : R) : Foliage.easeInOutCubic x = Spec.eased x.
Proof. rewrite easeInOutCubic_eased. apply eased_spec. Qed.

Lemma breath_spec (t p seed : R) (sp tp : Vec3) :
  Foliage.breath (Foliage.mkUniforms t p) (Foliage.mkAttributes sp tp seed)
  = 0.05 * sin (2 * t + seed * 10).
Proof.
  unfold Foliage.breath. cbn.
  replace (t * 2.0 + seed * 10.0) with (2 * t + seed * 10) by lra. ring.
Qed.

Lemma turbulence_spec (t p seed sx sy sz : R) (tp : Vec3) :
  Foliage.turbulence (Foliage.mkUniforms t p)
    (Foliage.mkAttributes (sx, sy, sz) tp seed)
  = 0.1 * sin (t + sx) * (1 - Spec.eased p).
Proof.
  unfold Foliage.turbulence. cbn. rewrite easeInOutCubic_spec. lra.
Qed.

Lemma drift_spec (t p seed : R) (sp tp : Vec3) :
  Foliage.drift (Foliage.mkUniforms t p) (Foliage.mkAttributes sp tp seed)
  = 0.02 * cos (1.5 * t + seed).
Proof.
  unfold Foliage.drift. cbn.
  replace (t * 1.5 + seed) with (1.5 * t + seed) by lra. ring.
Qed.

Lemma finalPos_offsets (t progress seed sx sy sz tx ty tz : R) :
  let e := Spec.eased progress in
  Foliage.finalPos (Foliage.mkUniforms t progress)
    (Foliage.mkAttributes (sx, sy, sz) (tx, ty, tz) seed) =
    (Spec.lerp sx tx e + 0.02 * cos (1.5 * t + seed),
     Spec.lerp sy ty e
       + (0.05 * sin (2 * t + seed * 10) + 0.1 * sin (t + sx) * (1 - e)),
     Spec.lerp sz tz e).
Proof.
  unfold Foliage.finalPos.
  rewrite breath_spec, turbulence_spec, drift_spec.
  cbn. rewrite !mix_spec, easeInOutCubic_spec. reflexivity.
Qed.

End Shader.

(** C4, as the code has it: while progress is at most 1 (where the
    shader's [pow] has a non-negative base), the shader's position is the
    eased lerp of the scatter and tree positions plus, on [y], the breathing
    [0.05*sin(2t + seed*10)] and the turbulence
    [0.1*sin(t + scatterX)*(1 - eased(progress))], and, on [x], the drift
    [0.02*cos(1.5t + seed)]; [z] carries no offset.  The turbulence is zero
    at progress 1. *)
Theorem foliage_position_offsets :
  forall (t progress seed sx sy sz tx ty tz : R),
    progress <= 1 ->
    let u := Foliage.mkUniforms t progress in
    let a := Foliage.mkAttributes (sx, sy, sz) (tx, ty, tz) seed in
    let e := Spec.eased progress in
    Foliage.finalPos u a =
      (Spec.lerp sx tx e + 0.02 * cos (1.5 * t + seed),
       Spec.lerp sy ty e
         + (0.05 * sin (2 * t + seed * 10) + 0.1 * sin (t + sx) * (1 - e)),
       Spec.lerp sz tz e)
    /\ Foliage.turbulence (Foliage.mkUniforms t 1) a = 0.
Proof.
  intros t progress seed sx sy sz tx ty tz _ u a e. split.
  - apply finalPos_offsets.
  - subst a. rewrite turbulence_spec, <- eased_spec, eased_1. ring.
Qed.

(** A needle a quarter of the way through the morph, two seconds in. *)
Lemma foliage_position_offsets_witness :
  0.25 <= 1
  /\ Foliage.finalPos (Foliage.mkUniforms 2 0.25)
       (Foliage.mkAttributes (3, 4, 12) (1, -2, 0) 0.5) =
     (Spec.lerp 3 1 (Spec.eased 0.25) + 0.02 * cos (1.5 * 2 + 0.5),
      Spec.lerp 4 (-2) (Spec.eased 0.25)
        + (0.05 * sin (2 * 2 + 0.5 * 10)
           + 0.1 * sin (2 + 3) * (1 - Spec.eased 0.25)),
      Spec.lerp 12 0 (Spec.eased 0.25)).
Proof.
  assert (H : 0.25 <= 1) by lra.
  split; [exact H|].
  exact (proj1 (foliage_position_offsets 2 0.25 0.5 3 4 12 1 (-2) 0 H)).
Defined.

(** C4 fails as stated: at [t = 0], progress 0, seed 0 and a scatter
    position [(PI/2, 0, 0)] the turbulence is 0.1; the shader puts it on
    [y], which ends above the claimed height, and on neither [x] nor [z],
    which end below the claimed ones. *)
Lemma turbulence_is_vertical_in_shader :
  let u := Foliage.mkUniforms 0 0 in
  let a := Foliage.mkAttributes (PI / 2, 0, 0) (0, 0, 0) 0 in
  let claimedX := Spec.foliagePosition true 0 0 0 (PI / 2, 0, 0) (0, 0, 0) in
  let claimedZ := Spec.foliagePosition false 0 0 0 (PI / 2, 0, 0) (0, 0, 0) in
  Foliage.finalPos u a = (PI / 2 + 0.02, 0.1, 0)
  /\ snd (fst claimedX) < snd (fst (Foliage.finalPos u a))
  /\ snd (fst claimedZ) < snd (fst (Foliage.finalPos u a))
  /\ fst (fst (Foliage.finalPos u a)) < fst (fst claimedX)
  /\ snd (Foliage.finalPos u a) < snd claimedZ.
Proof.
  cbn zeta.
  assert (He : Spec.eased 0 = 0) by (rewrite <- eased_spec; apply eased_0).
  assert (Hs : sin (0 + PI / 2) = 1) by (rewrite Rplus_0_l; apply sin_PI2).
  assert (Hb : sin (2 * 0 + 0 * 10) = 0)
    by (replace (2 * 0 + 0 * 10) with 0 by lra; apply sin_0).
  assert (Hc : cos (1.5 * 0 + 0) = 1)
    by (replace (1.5 * 0 + 0) with 0 by lra; apply cos_0).
  assert (Hf : Foliage.finalPos (Foliage.mkUniforms 0 0)
                 (Foliage.mkAttributes (PI / 2, 0, 0) (0, 0, 0) 0)
               = (PI / 2 + 0.02, 0.1, 0)).
  { rewrite finalPos_offsets. cbn zeta.
    rewrite He, Hs, Hb, Hc. unfold Spec.lerp. repeat f_equal; lra. }
  rewrite Hf. unfold Spec.foliagePosition.
  rewrite He, Hs, Hb, Hc. unfold Spec.lerp. cbn.
  repeat split; lra.
Qed.

(* ===================================================================== *)
(** * Properties of the ornaments' frame callback *)
(* ===================================================================== *)

(** Equality of positions, coordinate by coordinate. *)
Ltac vec3_eq := repeat (apply (f_equal2 pair)); try reflexivity; lra.

Section InstanceLoop.

Variable f : DualPosition -> nat -> Ornaments.Matrix4.

Lemma forEach_length (data : list DualPosition) (i : nat)
    (ms : list Ornaments.Matrix4) :
  length (Ornaments.forEach f i data ms) = length ms.
Proof.
  revert i ms. induction data as [|d rest IH]; intros i ms; cbn.
  - reflexivity.
  - rewrite IH. unfold Ornaments.setMatrixAt. apply length_insert.
Qed.

(** The loop leaves the matrices below its start index alone. *)
Lemma forEach_lookup_below (data : list DualPosition) (i j : nat)
    (ms : list Ornaments.Matrix4) :
  (j < i)%nat -> Ornaments.forEach f i data ms !! j = ms !! j.
Proof.
  revert i ms. induction data as [|d rest IH]; intros i ms Hj; cbn.
  - reflexivity.
  - rewrite IH by lia. unfold Ornaments.setMatrixAt.
    apply list_lookup_insert_ne. lia.
Qed.

(** Every element of [data] has its matrix written at its own index. *)
Lemma forEach_lookup_written (data : list DualPosition) (i k : nat)
    (ms : list Ornaments.Matrix4) (d : DualPosition) :
  (i + length data <= length ms)%nat ->
  data !! k = Some d ->
  Ornaments.forEach f i data ms !! (i + k)%nat = Some (f d (i + k)%nat).
Proof.
  revert i k ms. induction data as [|d0 rest IH]; intros i k ms Hlen Hk.
  - discriminate.
  - cbn in Hlen. cbn [Ornaments.forEach]. destruct k as [|k]; cbn in Hk.
    + injection Hk as ->. rewrite Nat.add_0_r.
      rewrite forEach_lookup_below by lia.
      unfold Ornaments.setMatrixAt. apply list_lookup_insert_eq. lia.
    + replace (i + S k)%nat with (S i + k)%nat by lia.
      apply IH; [|exact Hk].
      unfold Ornaments.setMatrixAt. rewrite length_insert. lia.
Qed.

End InstanceLoop.

(** C5: a frame that begins with [|progress - target| < 0.001] sets
    progress to the target and still writes every instance: position at
    the eased target, rotation [base + 0.1t] and [base + 0.2t] on the first
    two axes, scale pulsed by [1 + eased*0.1*sin(t + index)]; the buffer is
    flagged for upload. *)
Theorem snapped_frame_still_animates :
  forall (type : Ornaments.Kind) (data : list DualPosition) (f : Frame)
         (p : R) (mesh : Ornaments.InstancedMesh),
    length (Ornaments.instanceMatrix mesh) = length data ->
    Rabs (p - target_of (frameTree f)) < 0.001 ->
    let target := target_of (frameTree f) in
    let time := elapsedTime f in
    let e := Ornaments.eased target in
    let s' := Ornaments.useFrame type data f (Ornaments.mkState p (Some mesh)) in
    Ornaments.progressRef s' = target
    /\ exists mesh' : Ornaments.InstancedMesh,
         Ornaments.meshRef s' = Some mesh'
         /\ Ornaments.needsUpdate mesh' = true
         /\ forall (i : nat) (s0 s1 s2 t0 t1 t2 sc r0 r1 r2 : R),
              data !! i = Some (mkDualPosition (s0, s1, s2) (t0, t1, t2) sc (r0, r1, r2)) ->
              exists m : Ornaments.Matrix4,
                Ornaments.instanceMatrix mesh' !! i = Some m
                /\ Ornaments.euler m = (r0 + 0.1 * time, r1 + 0.2 * time, r2)
                /\ (let k := sc * (1 + e * 0.1 * sin (time + INR i)) in
                    Ornaments.scaling m = (k, k, k))
                /\ Ornaments.position m =
                     (Spec.lerp s0 t0 e, Spec.lerp s1 t1 e, Spec.lerp s2 t2 e).
Proof.
  intros type data f p mesh Hlen Hsnap target time e s'.
  assert (Hp : Ornaments.progressRef s' = target).
  { subst s'. rewrite ornaments_useFrame_progress.
    unfold Ornaments.updateProgress. fold target.
    destruct (Rlt_dec _ _) as [_|Hn]; [reflexivity | contradiction]. }
  split; [exact Hp|].
  subst s'. cbn in Hp |- *. eexists. split; [reflexivity|]. split; [reflexivity|].
  intros i s0 s1 s2 t0 t1 t2 sc r0 r1 r2 Hi. cbn.
  eexists. split.
  - apply (forEach_lookup_written _ data 0 i); [cbn; lia | exact Hi].
  - rewrite Hp. fold e. fold time. cbn. rewrite <- !lerp_spec.
    repeat split; vec3_eq.
Qed.

(** One box at progress 0.9995 with the target on the tree. *)
Lemma snapped_frame_still_animates_witness :
  let d := mkDualPosition (12, 0, 0) (2, 3, 0) 0.5 (1, 2, 0) in
  let mesh := Ornaments.mkInstancedMesh [Ornaments.initialInstance d 0] false in
  let f := mkFrame TREE_SHAPE 4 0.016 in
  length (Ornaments.instanceMatrix mesh) = length [d]
  /\ Rabs (0.9995 - target_of (frameTree f)) < 0.001
  /\ Ornaments.progressRef
       (Ornaments.useFrame Ornaments.box [d] f
          (Ornaments.mkState 0.9995 (Some mesh))) = 1.
Proof.
  cbn zeta.
  assert (Hs : Rabs (0.9995 - target_of TREE_SHAPE) < 0.001).
  { rewrite target_of_tree. unfold Rabs. destruct (Rcase_abs _); lra. }
  split; [reflexivity|]. split; [exact Hs|].
  exact (proj1 (snapped_frame_still_animates Ornaments.box
                  [mkDualPosition (12, 0, 0) (2, 3, 0) 0.5 (1, 2, 0)]
                  (mkFrame TREE_SHAPE 4 0.016) 0.9995
                  (Ornaments.mkInstancedMesh
                     [Ornaments.initialInstance
                        (mkDualPosition (12, 0, 0) (2, 3, 0) 0.5 (1, 2, 0)) 0]
                     false)
                  eq_refl Hs)).
Defined.

(* ===================================================================== *)
(** * Properties of the generated layouts *)
(* ===================================================================== *)

Section Geometry.

Lemma cbrt_0 : JSMath.cbrt 0 = 0.
Proof.
  unfold JSMath.cbrt. destruct (total_order_T 0 0) as [[H|H]|H]; try lra.
Qed.

Lemma cbrt_unit (u : R) : 0 <= u < 1 -> 0 <= JSMath.cbrt u < 1.
Proof.
  intros [H0 H1]. unfold JSMath.cbrt.
  destruct (total_order_T 0 u) as [[H|H]|H]; try lra.
  unfold Rpower. split.
  - apply Rlt_le, exp_pos.
  - rewrite <- exp_0. apply exp_increasing.
    assert (ln u < 0) by (rewrite <- ln_1; apply ln_increasing; lra).
    nra.
Qed.

Lemma cbrt_cube (u : R) : 0 <= u -> JSMath.cbrt u ^ 3 = u.
Proof.
  intros H0. unfold JSMath.cbrt.
  destruct (total_order_T 0 u) as [[H|H]|H]; try lra.
  - rewrite <- Rpower_pow by apply exp_pos.
    rewrite Rpower_mult. replace (/ 3 * INR 3) with 1 by (cbn; lra).
    apply Rpower_1, H.
Qed.

Lemma norm3_spherical (r phi theta : R) :
  0 <= r ->
  norm3 (r * sin phi * cos theta, r * sin phi * sin theta, r * cos phi) = r.
Proof.
  intros Hr. unfold norm3.
  replace (_ + _ + _) with
    (Rsqr r * (Rsqr (sin phi) * (Rsqr (sin theta) + Rsqr (cos theta)) + Rsqr (cos phi)))
    by (unfold Rsqr; ring).
  rewrite sin2_cos2, Rmult_1_r, sin2_cos2, Rmult_1_r.
  apply sqrt_Rsqr, Hr.
Qed.

Lemma axis_distance_polar (a r y : R) :
  axis_distance (cos a * r, y, sin a * r) = Rabs r.
Proof.
  unfold axis_distance.
  replace (_ + _) with (Rsqr r * (Rsqr (sin a) + Rsqr (cos a)))
    by (unfold Rsqr; ring).
  rewrite sin2_cos2, Rmult_1_r. apply sqrt_Rsqr_abs.
Qed.

End Geometry.

Section Buffers.

Lemma store3_length (i : nat) (v : Vec3) (a : list R) :
  length (Foliage.store3 i v a) = length a.
Proof. destruct v as [[x y] z]. unfold Foliage.store3. rewrite !length_insert. reflexivity. Qed.

Lemma vec3_at_store3_eq (i : nat) (v : Vec3) (a : list R) :
  (i * 3 + 2 < length a)%nat -> Foliage.vec3_at (Foliage.store3 i v a) i = Some v.
Proof.
  intros Hi. destruct v as [[x y] z]. unfold Foliage.vec3_at, Foliage.store3.
  rewrite (list_lookup_insert_ne _ (i * 3 + 2) (i * 3)) by lia.
  rewrite (list_lookup_insert_ne _ (i * 3 + 1) (i * 3)) by lia.
  rewrite list_lookup_insert_eq by lia.
  rewrite (list_lookup_insert_ne _ (i * 3 + 2) (i * 3 + 1)) by lia.
  rewrite list_lookup_insert_eq by (rewrite length_insert; lia).
  rewrite list_lookup_insert_eq by (rewrite !length_insert; lia).
  reflexivity.
Qed.

Lemma vec3_at_store3_ne (i j : nat) (v : Vec3) (a : list R) :
  i <> j -> Foliage.vec3_at (Foliage.store3 i v a) j = Foliage.vec3_at a j.
Proof.
  intros Hij. destruct v as [[x y] z]. unfold Foliage.vec3_at, Foliage.store3.
  rewrite !list_lookup_insert_ne by lia. reflexivity.
Qed.

Lemma foliage_body_eq (i : nat) (b : Foliage.Buffers) (rng : Random.Source) (k : nat) :
  Foliage.body i b rng k =
  (let s := Foliage.scatterPoint (rng k) (rng (1 + k)%nat) (rng (2 + k)%nat) in
   let t := Foliage.treePoint i (rng (3 + k)%nat) (rng (4 + k)%nat) in
   Foliage.mkBuffers (Foliage.store3 i s (Foliage.positions b))
     (Foliage.store3 i s (Foliage.scatterPos b))
     (Foliage.store3 i t (Foliage.treePos b))
     (<[i := rng (5 + k)%nat]> (Foliage.randoms b)),
   (6 + k)%nat).
Proof. reflexivity. Qed.

Lemma foliage_loop_S (n i : nat) (b : Foliage.Buffers) (rng : Random.Source) (k : nat) :
  Foliage.loop (S n) i b rng k =
  Foliage.loop n (S i) (fst (Foliage.body i b rng k)) rng (6 + k)%nat.
Proof. reflexivity. Qed.

(** While the loop runs from index [i] with the sample counter at [6 * i],
    vertices below [i] are final and vertex [j >= i] receives the points
    built from the samples [6 * j ...]. *)
Lemma foliage_loop_spec (rng : Random.Source) (n : nat) :
  forall (i : nat) (b : Foliage.Buffers),
    let b' := fst (Foliage.loop n i b rng (6 * i)%nat) in
    ((i + n) * 3 <= length (Foliage.scatterPos b))%nat ->
    ((i + n) * 3 <= length (Foliage.treePos b))%nat ->
    forall j : nat,
      ((j < i)%nat ->
         Foliage.vec3_at (Foliage.scatterPos b') j = Foliage.vec3_at (Foliage.scatterPos b) j
         /\ Foliage.vec3_at (Foliage.treePos b') j = Foliage.vec3_at (Foliage.treePos b) j)
      /\ ((i <= j < i + n)%nat ->
         Foliage.vec3_at (Foliage.scatterPos b') j = Some (foliageScatterAt rng j)
         /\ Foliage.vec3_at (Foliage.treePos b') j = Some (foliageTreeAt rng j)).
Proof.
  induction n as [|n IH]; intros i b b' Hs Ht j.
  - split; [intros _; split; reflexivity | lia].
  - subst b'. rewrite foliage_loop_S.
    replace (6 + 6 * i)%nat with (6 * S i)%nat by lia.
    set (b1 := fst (Foliage.body i b rng (6 * i)%nat)).
    assert (Hs1 : Foliage.scatterPos b1 =
                  Foliage.store3 i (foliageScatterAt rng i) (Foliage.scatterPos b)).
    { subst b1. rewrite foliage_body_eq. cbn. unfold foliageScatterAt.
      repeat f_equal; lia. }
    assert (Ht1 : Foliage.treePos b1 =
                  Foliage.store3 i (foliageTreeAt rng i) (Foliage.treePos b)).
    { subst b1. rewrite foliage_body_eq. cbn. unfold foliageTreeAt.
      repeat f_equal; lia. }
    destruct (IH (S i) b1) with (j := j) as [Hlow Hhigh].
    { rewrite Hs1, store3_length. lia. }
    { rewrite Ht1, store3_length. lia. }
    split.
    + intros Hj. destruct Hlow as [-> ->]; [lia|].
      rewrite Hs1, Ht1, !vec3_at_store3_ne by lia. split; reflexivity.
    + intros Hj. destruct (decide (j = i)) as [->|Hne].
      * destruct Hlow as [-> ->]; [lia|].
        rewrite Hs1, Ht1, !vec3_at_store3_eq by lia. split; reflexivity.
      * apply Hhigh. lia.
Qed.

End Buffers.

Section Instances.

Lemma ornaments_body_eq (type : Ornaments.Kind) (data : list DualPosition)
    (rng : Random.Source) (k : nat) :
  Ornaments.body type data rng k =
  (data ++
     [ {| tree := Ornaments.treePoint (rng k) (rng (1 + k)%nat);
          scatter := Ornaments.scatterPoint (rng (2 + k)%nat) (rng (3 + k)%nat)
                       (rng (4 + k)%nat);
          scale := Ornaments.scaleOf type (rng (5 + k)%nat);
          rotation := (rng (6 + k)%nat * PI, rng (7 + k)%nat * PI, 0) |} ],
   (8 + k)%nat).
Proof. reflexivity. Qed.

Lemma ornaments_loop_S (n : nat) (type : Ornaments.Kind)
    (data : list DualPosition) (rng : Random.Source) (k : nat) :
  Ornaments.loop (S n) type data rng k =
  Ornaments.loop n type (fst (Ornaments.body type data rng k)) rng (8 + k)%nat.
Proof. reflexivity. Qed.

(** While the sample counter is eight times the number of instances
    pushed, every instance is the one built from its own eight samples. *)
Lemma ornaments_loop_spec (type : Ornaments.Kind) (rng : Random.Source) (n : nat) :
  forall data : list DualPosition,
    (forall (j : nat) (d : DualPosition),
        data !! j = Some d -> d = ornamentAt type rng j) ->
    let data' := fst (Ornaments.loop n type data rng (8 * length data)%nat) in
    length data' = (length data + n)%nat
    /\ forall (j : nat) (d : DualPosition),
         data' !! j = Some d -> d = ornamentAt type rng j.
Proof.
  induction n as [|n IH]; intros data Hdata data'.
  - subst data'. cbn. split; [lia | exact Hdata].
  - subst data'. rewrite ornaments_loop_S.
    set (data1 := fst (Ornaments.body type data rng (8 * length data)%nat)).
    assert (H1 : data1 = data ++ [ornamentAt type rng (length data)]).
    { subst data1. rewrite ornaments_body_eq. cbn [fst]. unfold ornamentAt.
      rewrite !(Nat.add_comm _ (8 * length data)). reflexivity. }
    assert (Hlen : length data1 = S (length data))
      by (rewrite H1, length_app; cbn; lia).
    replace (8 + 8 * length data)%nat with (8 * length data1)%nat by lia.
    destruct (IH data1) as [Hl Hall].
    + intros j d. rewrite H1. intros Hj.
      apply lookup_app_Some in Hj as [Hj | [Hge Hj]]; [apply Hdata, Hj|].
      apply list_lookup_singleton_Some in Hj as [Hj0 <-].
      f_equal. lia.
    + split; [lia | exact Hall].
Qed.

(** Every index below [count] holds the ornament built from its samples. *)
Lemma useDualStateInstances_lookup (count : nat) (type : Ornaments.Kind)
    (rng : Random.Source) (i : nat) :
  (i < count)%nat ->
  Random.run (Ornaments.useDualStateInstances count type) rng !! i
  = Some (ornamentAt type rng i).
Proof.
  intros Hi. unfold Random.run, Ornaments.useDualStateInstances.
  assert (H0 : forall (j : nat) (d : DualPosition),
             @nil DualPosition !! j = Some d -> d = ornamentAt type rng j)
    by (intros j d Hj; discriminate).
  pose proof (ornaments_loop_spec type rng count [] H0) as H. cbn zeta in H.
  change (8 * length (@nil DualPosition))%nat with 0%nat in H.
  destruct H as [Hlen Hall]. cbn [length] in Hlen.
  destruct (lookup_lt_is_Some_2
              (fst (Ornaments.loop count type [] rng 0%nat)) i) as [d Hd];
    [lia|].
  rewrite Hd. f_equal. apply Hall, Hd.
Qed.

(** Every vertex below [count] holds the points built from its samples. *)
Lemma generate_lookup (count : nat) (rng : Random.Source) (i : nat) :
  (i < count)%nat ->
  let b := Random.run (Foliage.generate count) rng in
  Foliage.vec3_at (Foliage.scatterPos b) i = Some (foliageScatterAt rng i)
  /\ Foliage.vec3_at (Foliage.treePos b) i = Some (foliageTreeAt rng i).
Proof.
  intros Hi b. subst b. unfold Random.run, Foliage.generate.
  pose proof (foliage_loop_spec rng count 0 (Foliage.alloc count)) as H.
  cbn zeta in H. rewrite Nat.mul_0_r in H.
  apply H; cbn; unfold Foliage.Float32Array; rewrite ?length_replicate; lia.
Qed.

End Instances.

Section Elements.

Lemma norm3_spec_spherical (r theta phi : R) :
  0 <= r -> norm3 (Spec.spherical r theta phi) = r.
Proof. apply norm3_spherical. Qed.

Lemma foliage_scatterPoint_spec (u1 u2 u3 : R) :
  Foliage.scatterPoint u1 u2 u3 = Spec.scatterSample 15 u1 u2 u3.
Proof.
  unfold Foliage.scatterPoint, Spec.scatterSample, Spec.spherical.
  replace (u2 * 2 * PI) with (2 * PI * u2) by ring. reflexivity.
Qed.

Lemma ornaments_scatterPoint_spec (u3 u4 u5 : R) :
  Ornaments.scatterPoint u3 u4 u5 =
  Spec.spherical (10 + 10 * u3) (2 * PI * u4) (acos (2 * u5 - 1)).
Proof.
  unfold Ornaments.scatterPoint, Ornaments.rScatter, Spec.spherical.
  replace (u4 * 2 * PI) with (2 * PI * u4) by ring.
  replace (10 + u3 * 10) with (10 + 10 * u3) by ring. reflexivity.
Qed.

Lemma foliage_treePoint_bounds (i : nat) (hNorm u5 : R) :
  0 <= hNorm < 1 -> 0 <= u5 < 1 ->
  exists x z : R,
    Foliage.treePoint i hNorm u5 = (x, hNorm * 14 - 14 / 2, z)
    /\ 0 <= axis_distance (x, hNorm * 14 - 14 / 2, z) <= 5 + 0.5 / 2.
Proof.
  intros Hh Hu. unfold Foliage.treePoint, Foliage.treeHeight, Foliage.treeRadiusBase.
  cbn zeta. eexists _, _. split; [reflexivity|].
  rewrite axis_distance_polar. split; [apply Rabs_pos|].
  apply Rabs_le. lra.
Qed.

Lemma ornaments_treePoint_bounds (hNorm u2 : R) :
  0 <= hNorm < 1 ->
  exists x z : R,
    Ornaments.treePoint hNorm u2 = (x, hNorm * 12 - 12 / 2, z)
    /\ 0 <= axis_distance (x, hNorm * 12 - 12 / 2, z) <= 4.5 + 0.2.
Proof.
  intros Hh. unfold Ornaments.treePoint, Ornaments.treeHeight, Ornaments.treeRadiusBase.
  cbn zeta. eexists _, _. split; [reflexivity|].
  rewrite axis_distance_polar. split; [apply Rabs_pos|].
  apply Rabs_le. lra.
Qed.

End Elements.

(** C3, as the code has it: a foliage scatter position is the spherical
    sample with [r = 15 * cbrt(u)], azimuth [2 PI u2] and polar angle
    [acos(2 u3 - 1)], at distance at most 15 from the origin; an ornament
    scatter position has the same angles and [r = 10 + 10 u], at distance
    between 10 and 20 from the origin. *)
Theorem scatter_positions_within_outer_radius :
  forall (rng : Random.Source) (count : nat),
    Random.unit_interval rng ->
    (forall i : nat, (i < count)%nat ->
       exists v : Vec3,
         Foliage.vec3_at
           (Foliage.scatterPos (Random.run (Foliage.generate count) rng)) i = Some v
         /\ v = Spec.scatterSample 15 (rng (6 * i)%nat) (rng (6 * i + 1)%nat)
                  (rng (6 * i + 2)%nat)
         /\ norm3 v <= 15)
    /\ (forall (type : Ornaments.Kind) (i : nat), (i < count)%nat ->
       exists d : DualPosition,
         Random.run (Ornaments.useDualStateInstances count type) rng !! i = Some d
         /\ scatter d = Spec.spherical (10 + 10 * rng (8 * i + 2)%nat)
                          (2 * PI * rng (8 * i + 3)%nat)
                          (acos (2 * rng (8 * i + 4)%nat - 1))
         /\ 10 <= norm3 (scatter d) <= 20).
Proof.
  intros rng count Hrng. split.
  - intros i Hi. exists (foliageScatterAt rng i).
    split; [apply generate_lookup, Hi|].
    unfold foliageScatterAt. rewrite foliage_scatterPoint_spec.
    split; [reflexivity|].
    pose proof (cbrt_unit _ (Hrng (6 * i)%nat)) as Hc.
    unfold Spec.scatterSample. rewrite norm3_spec_spherical; lra.
  - intros type i Hi. exists (ornamentAt type rng i).
    split; [apply useDualStateInstances_lookup, Hi|].
    cbn [scatter ornamentAt]. rewrite ornaments_scatterPoint_spec.
    split; [reflexivity|].
    pose proof (Hrng (8 * i + 2)%nat) as Hu.
    rewrite norm3_spec_spherical; lra.
Qed.

(** The second of two spheres, every sample at one half. *)
Lemma scatter_positions_within_outer_radius_witness :
  let rng : Random.Source := fun _ => 0.5 in
  Random.unit_interval rng
  /\ exists d : DualPosition,
       Random.run (Ornaments.useDualStateInstances 2 Ornaments.sphere) rng !! 1%nat
       = Some d
       /\ scatter d = Spec.spherical (10 + 10 * 0.5) (2 * PI * 0.5) (acos (2 * 0.5 - 1))
       /\ 10 <= norm3 (scatter d) <= 20.
Proof.
  cbn zeta.
  assert (H : Random.unit_interval (fun _ => 0.5)) by (intros k; lra).
  split; [exact H|].
  apply (proj2 (scatter_positions_within_outer_radius (fun _ => 0.5) 2 H)
           Ornaments.sphere 1%nat).
  lia.
Defined.

(** C3 fails as stated: with every sample at 0 the ornament loop places its
    instance at distance 10 from the origin, where [R * cbrt(u)] is 0 for
    any [R]. *)
Lemma ornament_scatter_is_a_shell :
  let rng : Random.Source := fun _ => 0 in
  exists d : DualPosition,
    Random.run (Ornaments.useDualStateInstances 1 Ornaments.box) rng !! 0%nat
    = Some d
    /\ norm3 (scatter d) = 10
    /\ JSMath.cbrt (rng 2%nat) = 0
    /\ norm3 (Spec.scatterSample 20 (rng 2%nat) (rng 3%nat) (rng 4%nat)) = 0.
Proof.
  cbn zeta. eexists. split; [reflexivity|]. cbn [scatter].
  rewrite ornaments_scatterPoint_spec, cbrt_0.
  unfold Spec.scatterSample. rewrite cbrt_0.
  rewrite !norm3_spec_spherical by lra.
  repeat split; lra.
Qed.

(** C9: a generated tree position has [y = hNorm*H - H/2] in
    [[-H/2, H/2]] and lies within [R0 + jitterWidth/2] of the vertical axis
    for the foliage ([H = 14], [R0 = 5], [jitterWidth = 0.5]), within
    [R0 + 0.2] for the ornaments ([H = 12], [R0 = 4.5], no jitter). *)
Theorem tree_positions_within_cone :
  forall (rng : Random.Source) (count : nat),
    Random.unit_interval rng ->
    (forall i : nat, (i < count)%nat ->
       exists x y z : R,
         Foliage.vec3_at
           (Foliage.treePos (Random.run (Foliage.generate count) rng)) i
         = Some (x, y, z)
         /\ y = rng (6 * i + 3)%nat * 14 - 14 / 2
         /\ - (14 / 2) <= y <= 14 / 2
         /\ 0 <= axis_distance (x, y, z) <= 5 + 0.5 / 2)
    /\ (forall (type : Ornaments.Kind) (i : nat), (i < count)%nat ->
       exists (d : DualPosition) (x y z : R),
         Random.run (Ornaments.useDualStateInstances count type) rng !! i = Some d
         /\ tree d = (x, y, z)
         /\ y = rng (8 * i)%nat * 12 - 12 / 2
         /\ - (12 / 2) <= y <= 12 / 2
         /\ 0 <= axis_distance (x, y, z) <= 4.5 + 0.2).
Proof.
  intros rng count Hrng. split.
  - intros i Hi.
    destruct (foliage_treePoint_bounds i _ _ (Hrng (6 * i + 3)%nat)
                (Hrng (6 * i + 4)%nat)) as (x & z & Hv & Hd).
    exists x, (rng (6 * i + 3)%nat * 14 - 14 / 2), z.
    split; [rewrite <- Hv; apply generate_lookup, Hi|].
    split; [reflexivity|]. split; [|exact Hd].
    pose proof (Hrng (6 * i + 3)%nat). lra.
  - intros type i Hi.
    destruct (ornaments_treePoint_bounds _ (rng (8 * i + 1)%nat)
                (Hrng (8 * i)%nat)) as (x & z & Hv & Hd).
    exists (ornamentAt type rng i), x, (rng (8 * i)%nat * 12 - 12 / 2), z.
    split; [apply useDualStateInstances_lookup, Hi|].
    split; [exact Hv|]. split; [reflexivity|]. split; [|exact Hd].
    pose proof (Hrng (8 * i)%nat). lra.
Qed.

(** The second of two needles, every sample at one half. *)
Lemma tree_positions_within_cone_witness :
  let rng : Random.Source := fun _ => 0.5 in
  Random.unit_interval rng
  /\ exists x y z : R,
       Foliage.vec3_at (Foliage.treePos (Random.run (Foliage.generate 2) rng)) 1
       = Some (x, y, z)
       /\ y = 0.5 * 14 - 14 / 2
       /\ - (14 / 2) <= y <= 14 / 2
       /\ 0 <= axis_distance (x, y, z) <= 5 + 0.5 / 2.
Proof.
  cbn zeta.
  assert (H : Random.unit_interval (fun _ => 0.5)) by (intros k; lra).
  split; [exact H|].
  apply (proj1 (tree_positions_within_cone (fun _ => 0.5) 2 H) 1%nat).
  lia.
Defined.

(* ===================================================================== *)
(** * Further properties: store, button and camera rig *)
(* ===================================================================== *)

Section StoreAndRig.

Lemma toggles_S (n : nat) (s : Store.AppState) :
  toggles (S n) s = Store.toggleState (toggles n s).
Proof. reflexivity. Qed.

Lemma rig_useFrame_tree (d t x y z : R) :
  Rig.useFrame (mkFrame TREE_SHAPE t d) (x, y, z) = (x, y * (1 - d * 0.5), z).
Proof.
  unfold Rig.useFrame, Rig.targetY, MathUtils.lerp. cbn.
  rewrite !decide_True by reflexivity. vec3_eq.
Qed.

Lemma rig_useFrame_scattered (f : Frame) (p : Vec3) :
  frameTree f = SCATTERED -> Rig.useFrame f p = p.
Proof.
  intros Hf. unfold Rig.useFrame. rewrite Hf. reflexivity.
Qed.

Lemma rig_useFrame_x_z (f : Frame) (x y z : R) :
  exists y' : R, Rig.useFrame f (x, y, z) = (x, y', z).
Proof.
  unfold Rig.useFrame. case_decide; eexists; reflexivity.
Qed.

End StoreAndRig.

(** X1: after [n] calls of [toggleState] the tree state is the starting
    one when [n] is even and the other one when [n] is odd, and after at
    least one call [isMorphing] is true. *)
Theorem toggles_parity :
  forall (n : nat) (s : Store.AppState),
    Store.treeState (toggles n s) =
      (if Nat.even n then Store.treeState s
       else match Store.treeState s with
            | SCATTERED => TREE_SHAPE
            | TREE_SHAPE => SCATTERED
            end)
    /\ Store.isMorphing (toggles (S n) s) = true.
Proof.
  intros n s. split; [|reflexivity].
  induction n as [|n IH]; [reflexivity|].
  rewrite toggles_S, Nat.even_succ, <- Nat.negb_even.
  unfold Store.toggleState at 1. cbn [Store.treeState]. rewrite IH.
  destruct (Nat.even n), s as [[] m]; reflexivity.
Qed.

(** X2: [toggleState] does not read [isMorphing]: toggling after
    [setMorphing] is toggling; [setMorphing] after a toggle keeps the
    toggled tree state and sets the flag; the last [setMorphing] wins. *)
Theorem setMorphing_composition :
  forall (b b' : bool) (s : Store.AppState),
    Store.toggleState (Store.setMorphing b s) = Store.toggleState s
    /\ Store.setMorphing b (Store.toggleState s) =
       Store.mkAppState (Store.treeState (Store.toggleState s)) b
    /\ Store.setMorphing b (Store.setMorphing b' s) = Store.setMorphing b s.
Proof.
  intros b b' [ts m]. repeat split.
Qed.

(** X3: the button names the shape it will switch to: it reads
    "Summon Tree" in the initial store, and a click swaps the two labels. *)
Theorem button_label_follows_store :
  forall s : Store.AppState,
    UI.buttonLabel Store.initial = "Summon Tree"%string
    /\ UI.buttonLabel s =
       (if decide (Store.treeState s = TREE_SHAPE)
        then "Release Magic" else "Summon Tree")%string
    /\ UI.buttonLabel (UI.onClick s) =
       (if decide (Store.treeState s = TREE_SHAPE)
        then "Summon Tree" else "Release Magic")%string.
Proof.
  intros [[] m]; repeat split.
Qed.

(** X4: the rig never moves the camera along [x] or [z], and a run of
    frames rendered in the scattered state leaves the camera where it is. *)
Theorem rig_moves_only_y_in_tree_state :
  forall (frames : list Frame) (x y z : R),
    (exists y' : R, Rig.run frames (x, y, z) = (x, y', z))
    /\ (Forall (fun f => frameTree f = SCATTERED) frames ->
        Rig.run frames (x, y, z) = (x, y, z)).
Proof.
  intros frames x y z. split.
  - revert y. induction frames as [|f frames IH]; intros y.
    + exists y. reflexivity.
    + cbn. destruct (rig_useFrame_x_z f x y z) as [y1 ->]. apply IH.
  - intros Hfs. induction Hfs as [|f frames Hf _ IH]; [reflexivity|].
    cbn. rewrite rig_useFrame_scattered by exact Hf. exact IH.
Qed.

(** Two frames in the scattered state, from the initial camera. *)
Lemma rig_moves_only_y_in_tree_state_witness :
  let frames := [mkFrame SCATTERED 0.016 0.016; mkFrame SCATTERED 0.032 0.016] in
  Forall (fun f => frameTree f = SCATTERED) frames
  /\ Rig.run frames (0, 0, 30) = (0, 0, 30).
Proof.
  cbn zeta.
  assert (H : Forall (fun f => frameTree f = SCATTERED)
                [mkFrame SCATTERED 0.016 0.016; mkFrame SCATTERED 0.032 0.016])
    by (repeat constructor).
  split; [exact H|].
  exact (proj2 (rig_moves_only_y_in_tree_state _ 0 0 30) H).
Defined.

(** X5: in the tree state every frame scales the camera height by
    [1 - delta/2]: after [n] frames at a constant [delta] the height is
    [y * (1 - delta * 0.5)^n], which for [0 <= delta <= 2] is no further
    from 0 than [y]. *)
Theorem rig_height_decays_in_tree_state :
  forall (n k : nat) (d x y z : R),
    Rig.run (steady TREE_SHAPE d k n) (x, y, z) = (x, y * (1 - d * 0.5) ^ n, z)
    /\ (0 <= d <= 2 -> Rabs (y * (1 - d * 0.5) ^ n) <= Rabs y).
Proof.
  intros n k d x y z. split.
  - revert k y. induction n as [|n IH]; intros k y.
    + cbn. vec3_eq.
    + rewrite steady_S. cbn [Rig.run fold_left].
      rewrite rig_useFrame_tree.
      change (fold_left _ ?l ?s) with (Rig.run l s).
      rewrite IH, <- tech_pow_Rmult. vec3_eq.
  - intros Hd. rewrite Rabs_mult.
    assert (Hp : Rabs ((1 - d * 0.5) ^ n) <= 1).
    { rewrite <- RPow_abs.
      apply Rle_trans with (1 ^ n); [|rewrite pow1; lra].
      apply pow_incr. split; [apply Rabs_pos|].
      apply Rabs_le. lra. }
    pose proof (Rabs_pos y). nra.
Qed.

(** Sixty frames of 16 ms from a camera raised to height 4. *)
Lemma rig_height_decays_in_tree_state_witness :
  0 <= 0.016 <= 2
  /\ Rabs (4 * (1 - 0.016 * 0.5) ^ 60) <= Rabs 4.
Proof.
  assert (H : 0 <= 0.016 <= 2) by lra.
  split; [exact H|].
  exact (proj2 (rig_height_decays_in_tree_state 60 0 0.016 0 4 30) H).
Defined.

(* ===================================================================== *)
(** * Further properties of the progress update *)
(* ===================================================================== *)

Section ProgressSteps.

Lemma steady_app (ts : TreeState) (d : R) (k n m : nat) :
  steady ts d k (n + m) = steady ts d k n ++ steady ts d (k + n) m.
Proof. unfold steady. rewrite seq_app, map_app. reflexivity. Qed.

Lemma steady_tree (ts : TreeState) (d : R) (k n : nat) :
  Forall (fun f => frameTree f = ts) (steady ts d k n).
Proof.
  revert k. induction n as [|n IH]; intros k; [constructor|].
  rewrite steady_S. constructor; [reflexivity | apply IH].
Qed.

Lemma updateProgress_at_target (type : Ornaments.Kind) (T d : R) :
  Ornaments.updateProgress type T d T = T.
Proof.
  unfold Ornaments.updateProgress, MathUtils.lerp.
  destruct (Rlt_dec _ _); [reflexivity | ring].
Qed.

Lemma updateProgress_snap (type : Ornaments.Kind) (T d p : R) :
  Rabs (T - p) < 0.001 -> Ornaments.updateProgress type T d p = T.
Proof.
  intros H. unfold Ornaments.updateProgress.
  rewrite Rabs_minus_sym in H.
  destruct (Rlt_dec _ _); [reflexivity | contradiction].
Qed.

(** A frame shrinks the gap to the target by [1 - delta * lerpSpeed], or
    closes it. *)
Lemma updateProgress_gap (type : Ornaments.Kind) (T d p : R) :
  0 <= d * Ornaments.lerpSpeed type <= 1 ->
  Rabs (T - Ornaments.updateProgress type T d p)
  <= (1 - d * Ornaments.lerpSpeed type) * Rabs (T - p).
Proof.
  intros Hd. unfold Ornaments.updateProgress, MathUtils.lerp.
  pose proof (Rabs_pos (T - p)) as Hpos.
  destruct (Rlt_dec _ _).
  - replace (T - T) with 0 by ring. rewrite Rabs_R0. nra.
  - replace (T - _) with ((1 - d * Ornaments.lerpSpeed type) * (T - p)) by ring.
    rewrite Rabs_mult, Rabs_pos_eq; lra.
Qed.

Lemma ornaments_steady_gap (type : Ornaments.Kind) (data : list DualPosition)
    (ts : TreeState) (d : R) (n k : nat) (p : R) (mesh : Ornaments.InstancedMesh) :
  0 <= d * Ornaments.lerpSpeed type <= 1 ->
  Rabs (target_of ts
        - Ornaments.progressRef
            (Ornaments.run type data (steady ts d k n)
               (Ornaments.mkState p (Some mesh))))
  <= Rabs (target_of ts - p) * (1 - d * Ornaments.lerpSpeed type) ^ n.
Proof.
  intros Hd. revert k p mesh. induction n as [|n IH]; intros k p mesh.
  - cbn. lra.
  - rewrite steady_S. cbn [Ornaments.run fold_left].
    change (fold_left _ ?l ?s) with (Ornaments.run type data l s).
    cbn [Ornaments.useFrame Ornaments.meshRef frameTree delta Ornaments.progressRef].
    eapply Rle_trans; [apply IH|].
    pose proof (updateProgress_gap type (target_of ts) d p Hd) as Hg.
    assert (Hpow : 0 <= (1 - d * Ornaments.lerpSpeed type) ^ n)
      by (apply pow_le; lra).
    rewrite <- tech_pow_Rmult.
    pose proof (Rabs_pos (target_of ts - p)). nra.
Qed.

Lemma ornaments_run_at_target (type : Ornaments.Kind) (data : list DualPosition)
    (ts : TreeState) (frames : list Frame) (s : Ornaments.State) :
  Forall (fun f => frameTree f = ts) frames ->
  Ornaments.progressRef s = target_of ts ->
  Ornaments.progressRef (Ornaments.run type data frames s) = target_of ts.
Proof.
  intros Hfs. revert s.
  induction Hfs as [|f frames Hf _ IH]; intros s Hs; [exact Hs|].
  cbn. apply IH. destruct s as [p [mesh|]]; [|exact Hs].
  rewrite ornaments_useFrame_progress, Hf. cbn in Hs. rewrite Hs.
  apply updateProgress_at_target.
Qed.

Lemma foliage_run_at_target (ts : TreeState) (frames : list Frame)
    (s : Foliage.State) :
  Forall (fun f => frameTree f = ts) frames ->
  Foliage.progressRef s = target_of ts ->
  Foliage.progressRef (Foliage.run frames s) = target_of ts.
Proof.
  intros Hfs. revert s.
  induction Hfs as [|f frames Hf _ IH]; intros s Hs; [exact Hs|].
  cbn. apply IH. destruct s as [p [u|]]; [|exact Hs].
  rewrite foliage_useFrame_mounted. cbn in Hs |- *. rewrite Hf, Hs.
  unfold MathUtils.lerp. ring.
Qed.

Lemma pow_0976_300_snap : (1 - 0.016 * 1.5) ^ 300 < 0.001.
Proof.
  assert (H : 1000 * IZR 122 ^ 300 < IZR 125 ^ 300).
  { rewrite !pow_IZR, <- mult_IZR. apply IZR_lt. vm_compute. reflexivity. }
  replace (1 - 0.016 * 1.5) with (IZR 122 * / IZR 125) by lra.
  rewrite Rpow_mult_distr, pow_inv.
  assert (HQ : 0 < IZR 125 ^ 300) by (apply pow_lt; lra).
  set (P := IZR 122 ^ 300) in *. set (Q := IZR 125 ^ 300) in *.
  apply (Rmult_lt_reg_r Q); [lra|].
  rewrite Rmult_assoc, Rinv_l; lra.
Qed.

End ProgressSteps.

(** X6: a group whose progress already equals the target stays there:
    any run of frames rendered with one tree state, whatever their deltas,
    leaves the progress of the foliage and of either ornament kind at that
    state's target. *)
Theorem progress_at_target_is_fixed :
  forall (ts : TreeState) (frames : list Frame),
    Forall (fun f => frameTree f = ts) frames ->
    (forall s : Foliage.State,
        Foliage.progressRef s = target_of ts ->
        Foliage.progressRef (Foliage.run frames s) = target_of ts)
    /\ (forall (type : Ornaments.Kind) (data : list DualPosition)
               (s : Ornaments.State),
           Ornaments.progressRef s = target_of ts ->
           Ornaments.progressRef (Ornaments.run type data frames s) = target_of ts).
Proof.
  intros ts frames Hfs. split.
  - intros s. apply foliage_run_at_target, Hfs.
  - intros type data s. apply ornaments_run_at_target, Hfs.
Qed.

(** Two long frames in the scattered state, from the mounted foliage. *)
Lemma progress_at_target_is_fixed_witness :
  let frames := [mkFrame SCATTERED 3 3; mkFrame SCATTERED 10 7] in
  Forall (fun f => frameTree f = SCATTERED) frames
  /\ Foliage.progressRef (Foliage.run frames Foliage.mounted) = target_of SCATTERED.
Proof.
  cbn zeta.
  assert (H : Forall (fun f => frameTree f = SCATTERED)
                [mkFrame SCATTERED 3 3; mkFrame SCATTERED 10 7])
    by (repeat constructor).
  split; [exact H|].
  exact (proj1 (progress_at_target_is_fixed SCATTERED _ H) Foliage.mounted eq_refl).
Defined.

(** X7: with [0 <= lerpRate * delta <= 1] a frame moves progress toward
    the target and never past it: the new progress lies between the old
    progress and the target, in the foliage and in either ornament kind. *)
Theorem progress_moves_toward_target :
  forall (f : Frame) (p : R),
    let T := target_of (frameTree f) in
    (forall u : Foliage.Uniforms,
        0 <= delta f * 1.5 <= 1 ->
        Rmin p T
        <= Foliage.progressRef (Foliage.useFrame f (Foliage.mkState p (Some u)))
        <= Rmax p T)
    /\ (forall (type : Ornaments.Kind) (data : list DualPosition)
               (mesh : Ornaments.InstancedMesh),
           0 <= delta f * Ornaments.lerpSpeed type <= 1 ->
           Rmin p T
           <= Ornaments.progressRef
                (Ornaments.useFrame type data f (Ornaments.mkState p (Some mesh)))
           <= Rmax p T).
Proof.
  intros f p T. split.
  - intros u Hd. rewrite foliage_useFrame_mounted. cbn. fold T.
    unfold MathUtils.lerp, Rmin, Rmax. destruct (Rle_dec p T); nra.
  - intros type data mesh Hd. rewrite ornaments_useFrame_progress. fold T.
    unfold Ornaments.updateProgress, MathUtils.lerp, Rmin, Rmax.
    destruct (Rlt_dec _ _), (Rle_dec p T); nra.
Qed.

(** A 16 ms frame toward the tree from progress 0.4. *)
Lemma progress_moves_toward_target_witness :
  let f := mkFrame TREE_SHAPE 0.016 0.016 in
  0 <= delta f * 1.5 <= 1
  /\ Rmin 0.4 (target_of TREE_SHAPE)
     <= Foliage.progressRef
          (Foliage.useFrame f (Foliage.mkState 0.4 (Some (Foliage.mkUniforms 0 0.4))))
     <= Rmax 0.4 (target_of TREE_SHAPE).
Proof.
  cbn zeta.
  assert (H : 0 <= delta (mkFrame TREE_SHAPE 0.016 0.016) * 1.5 <= 1) by (cbn; lra).
  split; [exact H|].
  exact (proj1 (progress_moves_toward_target (mkFrame TREE_SHAPE 0.016 0.016) 0.4)
           (Foliage.mkUniforms 0 0.4) H).
Defined.

(** X8: the foliage update depends on the frame rate: two frames of
    [delta/2] leave progress short of one frame of [delta] by
    [(target - progress) * (0.75 * delta)^2]. *)
Theorem foliage_progress_depends_on_frame_rate :
  forall (ts : TreeState) (t1 t2 d p : R) (u : Foliage.Uniforms),
    let s := Foliage.mkState p (Some u) in
    Foliage.progressRef (Foliage.run [mkFrame ts t2 d] s)
    - Foliage.progressRef
        (Foliage.run [mkFrame ts t1 (d / 2); mkFrame ts t2 (d / 2)] s)
    = (target_of ts - p) * (0.75 * d) ^ 2.
Proof.
  intros ts t1 t2 d p u s. subst s. unfold Foliage.run. cbn [fold_left].
  repeat (rewrite foliage_useFrame_mounted; cbn zeta).
  cbn [Foliage.progressRef frameTree delta].
  generalize (target_of ts). intros T. unfold MathUtils.lerp.
  replace 1.5 with (3 / 2) by lra. replace 0.75 with (3 / 4) by lra. field.
Qed.

(** X9: under a constant tree state and a constant [delta] the mounted
    foliage closes the gap to the target geometrically: after [n] frames
    progress is [target - (target - progress) * (1 - 1.5 * delta)^n]; an
    unmounted foliage keeps its progress. *)
Theorem foliage_geometric_approach :
  forall (ts : TreeState) (d : R) (n k : nat) (p : R) (u : Foliage.Uniforms),
    Foliage.progressRef
      (Foliage.run (steady ts d k n) (Foliage.mkState p (Some u)))
    = target_of ts - (target_of ts - p) * (1 - d * 1.5) ^ n
    /\ Foliage.progressRef
         (Foliage.run (steady ts d k n) (Foliage.mkState p None)) = p.
Proof.
  intros ts d n k p u. split.
  - apply foliage_steady.
  - rewrite foliage_run_unmounted. reflexivity.
Qed.

(** X10: after any non-empty run of frames on a mounted foliage the
    shader's uniforms hold the last frame's clock time and the current
    progress. *)
Theorem foliage_uniforms_follow_progress :
  forall (frames : list Frame) (f : Frame) (p : R) (u : Foliage.Uniforms),
    let s' := Foliage.run (frames ++ [f]) (Foliage.mkState p (Some u)) in
    Foliage.shaderRef s'
    = Some (Foliage.mkUniforms (elapsedTime f) (Foliage.progressRef s')).
Proof.
  intros frames f p u s'. subst s'. rewrite foliage_run_app.
  destruct (foliage_run_mounted frames p u) as (q & v & ->).
  reflexivity.
Qed.

(** X11: the ornaments reach the target exactly: with
    [0 <= lerpSpeed * delta <= 1], progress in [[0,1]] and
    [(1 - lerpSpeed * delta)^n < 0.001], after [n] frames at a constant
    tree state the next frame snaps progress to the target, and it stays
    there for every further frame. *)
Theorem ornaments_snap_to_target :
  forall (type : Ornaments.Kind) (data : list DualPosition) (ts : TreeState)
         (d : R) (n m k : nat) (p : R) (mesh : Ornaments.InstancedMesh),
    0 <= d * Ornaments.lerpSpeed type <= 1 ->
    0 <= p <= 1 ->
    (1 - d * Ornaments.lerpSpeed type) ^ n < 0.001 ->
    Ornaments.progressRef
      (Ornaments.run type data (steady ts d k (n + S m))
         (Ornaments.mkState p (Some mesh)))
    = target_of ts.
Proof.
  intros type data ts d n m k p mesh Hd Hp Hn.
  rewrite steady_app, ornaments_run_app.
  pose proof (ornaments_steady_gap type data ts d n k p mesh Hd) as Hgap.
  assert (Hm : is_Some (Ornaments.meshRef
                          (Ornaments.run type data (steady ts d k n)
                             (Ornaments.mkState p (Some mesh)))))
    by (apply ornaments_run_mesh; cbn; eauto).
  destruct (Ornaments.run type data (steady ts d k n) _) as [q [mesh'|]];
    [|destruct Hm; discriminate].
  cbn [Ornaments.progressRef] in Hgap.
  rewrite steady_S. cbn [Ornaments.run fold_left].
  change (fold_left _ ?l ?s) with (Ornaments.run type data l s).
  apply ornaments_run_at_target; [apply steady_tree|].
  rewrite ornaments_useFrame_progress. cbn [frameTree delta].
  apply updateProgress_snap.
  assert (H1 : Rabs (target_of ts - p) <= 1).
  { apply Rabs_le. destruct (target_of_cases ts) as [-> | ->]; lra. }
  assert (Hpow : 0 <= (1 - d * Ornaments.lerpSpeed type) ^ n)
    by (apply pow_le; lra).
  pose proof (Rabs_pos (target_of ts - p)). nra.
Qed.

(** Spheres at 16 ms per frame: 300 frames, then one more. *)
Lemma ornaments_snap_to_target_witness :
  0 <= 0.016 * Ornaments.lerpSpeed Ornaments.sphere <= 1
  /\ 0 <= 0 <= 1
  /\ (1 - 0.016 * Ornaments.lerpSpeed Ornaments.sphere) ^ 300 < 0.001
  /\ Ornaments.progressRef
       (Ornaments.run Ornaments.sphere [] (steady TREE_SHAPE 0.016 0 (300 + 1))
          (Ornaments.mkState 0 (Some (Ornaments.mkInstancedMesh [] false))))
     = target_of TREE_SHAPE.
Proof.
  assert (Hd : 0 <= 0.016 * Ornaments.lerpSpeed Ornaments.sphere <= 1)
    by (unfold Ornaments.lerpSpeed; lra).
  assert (Hp : 0 <= 0 <= 1) by lra.
  assert (Hn : (1 - 0.016 * Ornaments.lerpSpeed Ornaments.sphere) ^ 300 < 0.001)
    by exact pow_0976_300_snap.
  split; [exact Hd|]. split; [exact Hp|]. split; [exact Hn|].
  exact (ornaments_snap_to_target Ornaments.sphere [] TREE_SHAPE 0.016 300 0 0 0
           (Ornaments.mkInstancedMesh [] false) Hd Hp Hn).
Defined.

(* ===================================================================== *)
(** * Further properties of the foliage shaders *)
(* ===================================================================== *)

Section Sprite.

Lemma easeInOutCubic_unit (p : R) :
  0 <= p <= 1 -> 0 <= Foliage.easeInOutCubic p <= 1.
Proof. rewrite easeInOutCubic_eased. apply eased_unit. Qed.

Lemma easeInOutCubic_0 : Foliage.easeInOutCubic 0 = 0.
Proof. rewrite easeInOutCubic_eased. apply eased_0. Qed.

Lemma easeInOutCubic_1 : Foliage.easeInOutCubic 1 = 1.
Proof. rewrite easeInOutCubic_eased. apply eased_1. Qed.

(** [finalPos] in the shader's own terms. *)
Lemma finalPos_mix (t progress seed sx sy sz tx ty tz : R) :
  let u := Foliage.mkUniforms t progress in
  let a := Foliage.mkAttributes (sx, sy, sz) (tx, ty, tz) seed in
  let e := Foliage.easeInOutCubic progress in
  Foliage.finalPos u a =
    (Foliage.mix sx tx e + Foliage.drift u a,
     Foliage.mix sy ty e + (Foliage.breath u a + Foliage.turbulence u a),
     Foliage.mix sz tz e).
Proof. reflexivity. Qed.

Lemma clamp_unit (x : R) : 0 <= FoliageSprite.clamp x 0.0 1.0 <= 1.
Proof.
  unfold FoliageSprite.clamp, Rmin, Rmax.
  destruct (Rle_dec x 0.0); destruct (Rle_dec _ 1.0); lra.
Qed.

Lemma smoothstep_unit (e0 e1 x : R) : 0 <= FoliageSprite.smoothstep e0 e1 x <= 1.
Proof.
  unfold FoliageSprite.smoothstep. cbn zeta.
  pose proof (clamp_unit ((x - e0) / (e1 - e0))) as H.
  set (t := FoliageSprite.clamp _ _ _) in *. split.
  - apply Rmult_le_pos; [apply Rmult_le_pos; lra | lra].
  - assert (H1 : 0 <= (1 - t) * (1 - t) * (1 + 2 * t))
      by (apply Rmult_le_pos; [apply Rmult_le_pos; lra | lra]).
    nra.
Qed.

Lemma smoothstep_below (x : R) :
  x <= 0.4 -> FoliageSprite.smoothstep 0.4 0.5 x = 0.
Proof.
  intros Hx. unfold FoliageSprite.smoothstep, FoliageSprite.clamp. cbn zeta.
  assert (H : (x - 0.4) / (0.5 - 0.4) <= 0).
  { replace (0.5 - 0.4) with (/ 10) by lra.
    unfold Rdiv. rewrite Rinv_inv. lra. }
  rewrite (Rmax_right _ 0.0) by lra.
  rewrite Rmin_left by lra. lra.
Qed.

End Sprite.

(** X12: for progress in [[0,1]] the secondary motion moves a needle by
    at most 0.02 along [x] and 0.15 along [y] from its interpolated
    position, and not at all along [z]. *)
Theorem foliage_secondary_motion_is_bounded :
  forall (t progress seed sx sy sz tx ty tz : R),
    0 <= progress <= 1 ->
    let u := Foliage.mkUniforms t progress in
    let a := Foliage.mkAttributes (sx, sy, sz) (tx, ty, tz) seed in
    let e := Foliage.easeInOutCubic progress in
    exists fx fy fz : R,
      Foliage.finalPos u a = (fx, fy, fz)
      /\ Rabs (fx - Foliage.mix sx tx e) <= 0.02
      /\ Rabs (fy - Foliage.mix sy ty e) <= 0.15
      /\ fz = Foliage.mix sz tz e.
Proof.
  intros t progress seed sx sy sz tx ty tz Hp u a e.
  eexists _, _, _. split; [apply finalPos_mix|]. fold e.
  pose proof (easeInOutCubic_unit progress Hp) as He. fold e in He.
  repeat split.
  - unfold Foliage.drift. cbn.
    pose proof (COS_bound (t * 1.5 + seed)) as [Hl Hh].
    apply Rabs_le. lra.
  - unfold Foliage.breath, Foliage.turbulence. cbn. fold e.
    pose proof (SIN_bound (t * 2.0 + seed * 10.0)) as [Hl Hh].
    pose proof (SIN_bound (t + sx)) as [Hl' Hh'].
    apply Rabs_le. split; nra.
Qed.

(** Half-way through the morph, two seconds in. *)
Lemma foliage_secondary_motion_is_bounded_witness :
  0 <= 0.5 <= 1
  /\ exists fx fy fz : R,
       Foliage.finalPos (Foliage.mkUniforms 2 0.5)
         (Foliage.mkAttributes (3, 4, 12) (1, -2, 0) 0.25) = (fx, fy, fz)
       /\ Rabs (fx - Foliage.mix 3 1 (Foliage.easeInOutCubic 0.5)) <= 0.02
       /\ Rabs (fy - Foliage.mix 4 (-2) (Foliage.easeInOutCubic 0.5)) <= 0.15
       /\ fz = Foliage.mix 12 0 (Foliage.easeInOutCubic 0.5).
Proof.
  assert (H : 0 <= 0.5 <= 1) by lra.
  split; [exact H|].
  exact (foliage_secondary_motion_is_bounded 2 0.5 0.25 3 4 12 1 (-2) 0 H).
Defined.

(** X13: at progress 0 a needle sits at its scatter position plus drift,
    breathing and the full turbulence; at progress 1 it sits at its tree
    position plus drift and breathing only. *)
Theorem foliage_position_at_rest :
  forall (t seed sx sy sz tx ty tz : R),
    let a := Foliage.mkAttributes (sx, sy, sz) (tx, ty, tz) seed in
    Foliage.finalPos (Foliage.mkUniforms t 0) a =
      (sx + cos (t * 1.5 + seed) * 0.02,
       sy + (sin (t * 2.0 + seed * 10.0) * 0.05 + sin (t + sx) * 0.1),
       sz)
    /\ Foliage.finalPos (Foliage.mkUniforms t 1) a =
      (tx + cos (t * 1.5 + seed) * 0.02,
       ty + sin (t * 2.0 + seed * 10.0) * 0.05,
       tz).
Proof.
  intros t seed sx sy sz tx ty tz a. subst a.
  rewrite !finalPos_mix. cbn zeta.
  unfold Foliage.drift, Foliage.breath, Foliage.turbulence, Foliage.mix. cbn.
  rewrite easeInOutCubic_0, easeInOutCubic_1. split; vec3_eq.
Qed.

(** X14: in front of the camera ([mvPosition.z < 0]) the point size is
    positive and within 30 percent of [40 / -mvPosition.z]. *)
Theorem foliage_point_size_bounds :
  forall (u : Foliage.Uniforms) (a : Foliage.Attributes) (mvz : R),
    mvz < 0 ->
    28 / - mvz <= FoliageSprite.pointSize u a mvz <= 52 / - mvz
    /\ 0 < FoliageSprite.pointSize u a mvz.
Proof.
  intros u a mvz Hz. unfold FoliageSprite.pointSize, Foliage.sizePulse.
  pose proof (SIN_bound (Foliage.uTime u * 5.0 + Foliage.aRandom a * 100.0))
    as [Hl Hh].
  set (s := sin _) in *.
  assert (Hi : 0 < / - mvz) by (apply Rinv_0_lt_compat; lra).
  unfold Rdiv. set (i := / - mvz) in *. split; [split|]; nra.
Qed.

(** A needle ten units in front of the camera. *)
Lemma foliage_point_size_bounds_witness :
  -10 < 0
  /\ 0 < FoliageSprite.pointSize (Foliage.mkUniforms 1 0)
           (Foliage.mkAttributes (0, 0, 0) (0, 0, 0) 0.5) (-10).
Proof.
  assert (H : -10 < 0) by lra.
  split; [exact H|].
  exact (proj2 (foliage_point_size_bounds (Foliage.mkUniforms 1 0)
                  (Foliage.mkAttributes (0, 0, 0) (0, 0, 0) 0.5) (-10) H)).
Defined.

(** X15: a sprite is a disc: a fragment further than 0.5 from the centre
    of the point is discarded; a fragment that is kept lies within 0.5 and
    has alpha in [[0,1]]; within 0.4 of the centre alpha is exactly 1. *)
Theorem foliage_fragment_alpha :
  forall pointCoord : R * R,
    (0.5 < FoliageSprite.dist pointCoord ->
     FoliageSprite.fragmentAlpha pointCoord = None)
    /\ (forall alpha : R,
          FoliageSprite.fragmentAlpha pointCoord = Some alpha ->
          FoliageSprite.dist pointCoord <= 0.5 /\ 0 <= alpha <= 1)
    /\ (FoliageSprite.dist pointCoord <= 0.4 ->
        FoliageSprite.fragmentAlpha pointCoord = Some 1).
Proof.
  intros pc. unfold FoliageSprite.fragmentAlpha. cbn zeta.
  set (d := FoliageSprite.dist pc).
  pose proof (smoothstep_unit 0.4 0.5 d) as Hs.
  destruct (Rgt_dec d 0.5) as [Hd|Hd]; unfold Rgt in Hd.
  - split; [reflexivity|]. split; [discriminate | lra].
  - split; [lra|]. split.
    + intros alpha [= <-]. lra.
    + intros Hin. rewrite smoothstep_below by exact Hin. f_equal. lra.
Qed.

(** The centre of the point. *)
Lemma foliage_fragment_alpha_witness :
  FoliageSprite.dist (0.5, 0.5) <= 0.4
  /\ FoliageSprite.fragmentAlpha (0.5, 0.5) = Some 1.
Proof.
  assert (H : FoliageSprite.dist (0.5, 0.5) <= 0.4).
  { unfold FoliageSprite.dist.
    replace ((0.5 - 0.5) * (0.5 - 0.5) + (0.5 - 0.5) * (0.5 - 0.5)) with 0 by lra.
    rewrite sqrt_0. lra. }
  split; [exact H|].
  exact (proj2 (proj2 (foliage_fragment_alpha (0.5, 0.5))) H).
Defined.

(* ===================================================================== *)
(** * Further properties of the generated layouts *)
(* ===================================================================== *)

Section LayoutBuffers.

(** What one run of the foliage loop keeps: buffer sizes, the equality of
    [positions] and [scatterPos], six samples per iteration. *)
Lemma foliage_loop_shape (rng : Random.Source) (n : nat) :
  forall (i k : nat) (b : Foliage.Buffers),
    Foliage.positions b = Foliage.scatterPos b ->
    let r := Foliage.loop n i b rng k in
    length (Foliage.positions (fst r)) = length (Foliage.positions b)
    /\ length (Foliage.scatterPos (fst r)) = length (Foliage.scatterPos b)
    /\ length (Foliage.treePos (fst r)) = length (Foliage.treePos b)
    /\ length (Foliage.randoms (fst r)) = length (Foliage.randoms b)
    /\ Foliage.positions (fst r) = Foliage.scatterPos (fst r)
    /\ snd r = (k + 6 * n)%nat.
Proof.
  induction n as [|n IH]; intros i k b Heq r.
  - subst r. cbn. repeat split; try reflexivity; [exact Heq | lia].
  - subst r. rewrite foliage_loop_S.
    destruct (IH (S i) (6 + k)%nat (fst (Foliage.body i b rng k)))
      as (H1 & H2 & H3 & H4 & H5 & H6).
    { rewrite foliage_body_eq. cbn. rewrite Heq. reflexivity. }
    rewrite H1, H2, H3, H4, H6. rewrite foliage_body_eq. cbn [fst].
    cbn [Foliage.positions Foliage.scatterPos Foliage.treePos Foliage.randoms].
    rewrite !store3_length, length_insert.
    repeat split; try reflexivity; [exact H5 | lia].
Qed.

Lemma ornaments_loop_samples (type : Ornaments.Kind) (rng : Random.Source)
    (n : nat) :
  forall (data : list DualPosition) (k : nat),
    snd (Ornaments.loop n type data rng k) = (k + 8 * n)%nat.
Proof.
  induction n as [|n IH]; intros data k.
  - cbn. lia.
  - rewrite ornaments_loop_S, IH. lia.
Qed.

Lemma useDualStateInstances_length (count : nat) (type : Ornaments.Kind)
    (rng : Random.Source) :
  length (Random.run (Ornaments.useDualStateInstances count type) rng) = count.
Proof.
  unfold Random.run, Ornaments.useDualStateInstances.
  assert (H0 : forall (j : nat) (d : DualPosition),
             @nil DualPosition !! j = Some d -> d = ornamentAt type rng j)
    by (intros j d Hj; discriminate).
  pose proof (ornaments_loop_spec type rng count [] H0) as H. cbn zeta in H.
  change (8 * length (@nil DualPosition))%nat with 0%nat in H.
  destruct H as [Hlen _]. exact Hlen.
Qed.

(** Squares decide bounds on norms. *)
Lemma norm3_le (x y z r : R) :
  0 <= r -> x * x + y * y + z * z <= r * r -> norm3 (x, y, z) <= r.
Proof.
  intros Hr H. unfold norm3.
  rewrite <- (sqrt_square r) by exact Hr.
  apply sqrt_le_1_alt, H.
Qed.

Lemma norm3_sq (x y z r : R) :
  norm3 (x, y, z) <= r -> x * x + y * y + z * z <= r * r.
Proof.
  intros H. unfold norm3 in H.
  assert (Hs : 0 <= x * x + y * y + z * z) by nra.
  pose proof (sqrt_pos (x * x + y * y + z * z)) as Hp.
  rewrite <- (sqrt_sqrt _ Hs) at 1. nra.
Qed.

Lemma square_convex (x y e : R) :
  0 <= e <= 1 ->
  ((1 - e) * x + e * y) * ((1 - e) * x + e * y) <= (1 - e) * (x * x) + e * (y * y).
Proof.
  intros He.
  assert (H : 0 <= e * (1 - e) * ((x - y) * (x - y))).
  { apply Rmult_le_pos; [apply Rmult_le_pos; lra | apply (Rle_0_sqr (x - y))]. }
  nra.
Qed.

(** A ball is convex: a point between two points of the ball is in it. *)
Lemma norm3_lerp (a b : Vec3) (e r : R) :
  0 <= e <= 1 -> norm3 a <= r -> norm3 b <= r ->
  norm3 (MathUtils.lerp (fst (fst a)) (fst (fst b)) e,
         MathUtils.lerp (snd (fst a)) (snd (fst b)) e,
         MathUtils.lerp (snd a) (snd b) e) <= r.
Proof.
  destruct a as [[ax ay] az], b as [[bx by'] bz]. cbn [fst snd].
  intros He Ha Hb.
  assert (Hr : 0 <= r).
  { eapply Rle_trans; [|exact Ha]. apply sqrt_pos. }
  apply norm3_sq in Ha, Hb. apply norm3_le; [exact Hr|].
  unfold MathUtils.lerp.
  pose proof (square_convex ax bx e He) as Hx.
  pose proof (square_convex ay by' e He) as Hy.
  pose proof (square_convex az bz e He) as Hz.
  nra.
Qed.

Lemma norm3_polar (a r y bound : R) :
  0 <= bound -> r * r + y * y <= bound * bound ->
  norm3 (cos a * r, y, sin a * r) <= bound.
Proof.
  intros Hb H. apply norm3_le; [exact Hb|].
  pose proof (sin2_cos2 a) as Hsc. unfold Rsqr in Hsc.
  replace (cos a * r * (cos a * r) + y * y + sin a * r * (sin a * r))
    with (r * r * (sin a * sin a + cos a * cos a) + y * y) by ring.
  rewrite Hsc. lra.
Qed.

Lemma ornaments_treePoint_norm (hNorm u2 : R) :
  0 <= hNorm < 1 -> norm3 (Ornaments.treePoint hNorm u2) <= 20.
Proof.
  intros Hh. unfold Ornaments.treePoint, Ornaments.treeHeight,
    Ornaments.treeRadiusBase. cbn zeta.
  apply norm3_polar; [lra | nra].
Qed.

Lemma foliage_treePoint_norm (i : nat) (hNorm u5 : R) :
  0 <= hNorm < 1 -> 0 <= u5 < 1 -> norm3 (Foliage.treePoint i hNorm u5) <= 15.
Proof.
  intros Hh Hu. unfold Foliage.treePoint, Foliage.treeHeight,
    Foliage.treeRadiusBase. cbn zeta.
  apply norm3_polar; [lra | nra].
Qed.

End LayoutBuffers.

(** X16: [generate count] fills buffers of [3 * count] coordinates and
    [count] seeds, leaves [positions] equal to [scatterPos], and draws
    exactly [6 * count] samples. *)
Theorem foliage_buffers_shape :
  forall (rng : Random.Source) (count : nat),
    let r := Foliage.generate count rng 0%nat in
    length (Foliage.positions (fst r)) = (count * 3)%nat
    /\ length (Foliage.scatterPos (fst r)) = (count * 3)%nat
    /\ length (Foliage.treePos (fst r)) = (count * 3)%nat
    /\ length (Foliage.randoms (fst r)) = count
    /\ Foliage.positions (fst r) = Foliage.scatterPos (fst r)
    /\ snd r = (6 * count)%nat.
Proof.
  intros rng count r. subst r. unfold Foliage.generate.
  destruct (foliage_loop_shape rng count 0 0 (Foliage.alloc count) eq_refl)
    as (H1 & H2 & H3 & H4 & H5 & H6).
  rewrite H1, H2, H3, H4, H6. cbn.
  unfold Foliage.Float32Array. rewrite !length_replicate.
  repeat split; try reflexivity. exact H5.
Qed.

(** X18: 144 steps of 137.5 degrees are 55 full turns, so needle
    [i + 144] gets the tree position of needle [i] when both draw the same
    height and jitter: the spiral has only 144 distinct azimuths. *)
Theorem foliage_azimuth_repeats_every_144 :
  forall (i : nat) (hNorm u5 : R),
    Foliage.treePoint (i + 144) hNorm u5 = Foliage.treePoint i hNorm u5.
Proof.
  intros i hNorm u5. unfold Foliage.treePoint. cbn zeta.
  assert (Ha : INR (i + 144) * 137.5 * (PI / 180)
               = INR i * 137.5 * (PI / 180) + 2 * INR 55 * PI).
  { rewrite plus_INR.
    replace (INR 144) with 144 by (rewrite INR_IZR_INZ; reflexivity).
    replace (INR 55) with 55 by (rewrite INR_IZR_INZ; reflexivity).
    replace 137.5 with (275 / 2) by lra. field. }
  rewrite Ha, cos_period, sin_period. reflexivity.
Qed.

(** X19: [useDualStateInstances count type] returns [count] instances
    from [8 * count] samples; each has a scale in [[0.3, 0.7)] for a box
    and [[0.2, 0.5)] for a sphere, and a base rotation in [[0, PI)] on the
    first two axes and 0 on the third. *)
Theorem ornament_instances_shape :
  forall (rng : Random.Source) (count : nat) (type : Ornaments.Kind),
    Random.unit_interval rng ->
    let r := Ornaments.useDualStateInstances count type rng 0%nat in
    length (fst r) = count
    /\ snd r = (8 * count)%nat
    /\ forall (i : nat) (d : DualPosition),
         fst r !! i = Some d ->
         (match type with
          | Ornaments.box => 0.3 <= scale d < 0.7
          | Ornaments.sphere => 0.2 <= scale d < 0.5
          end)
         /\ exists r0 r1 : R,
              rotation d = (r0, r1, 0) /\ 0 <= r0 < PI /\ 0 <= r1 < PI.
Proof.
  intros rng count type Hrng r. subst r. split; [|split].
  - apply (useDualStateInstances_length count type rng).
  - unfold Ornaments.useDualStateInstances. rewrite ornaments_loop_samples. lia.
  - intros i d Hd.
    assert (Hi : (i < count)%nat).
    { apply lookup_lt_Some in Hd.
      rewrite <- (useDualStateInstances_length count type rng). exact Hd. }
    pose proof (useDualStateInstances_lookup count type rng i Hi) as Hl.
    unfold Random.run in Hl. rewrite Hl in Hd. injection Hd as <-.
    pose proof PI_RGT_0 as Hpi.
    pose proof (Hrng (8 * i + 5)%nat) as H5.
    pose proof (Hrng (8 * i + 6)%nat) as H6.
    pose proof (Hrng (8 * i + 7)%nat) as H7.
    split.
    + destruct type; cbn [scale ornamentAt Ornaments.scaleOf]; lra.
    + eexists _, _. cbn [rotation ornamentAt].
      split; [reflexivity|]. split; nra.
Qed.

(** Three boxes, every sample at one half. *)
Lemma ornament_instances_shape_witness :
  let rng : Random.Source := fun _ => 0.5 in
  Random.unit_interval rng
  /\ length (fst (Ornaments.useDualStateInstances 3 Ornaments.box rng 0%nat)) = 3%nat.
Proof.
  cbn zeta.
  assert (H : Random.unit_interval (fun _ => 0.5)) by (intros k; lra).
  split; [exact H|].
  exact (proj1 (ornament_instances_shape (fun _ => 0.5) 3 Ornaments.box H)).
Defined.

(** X20: a generated ornament never leaves the ball of radius 20: for
    progress in [[0,1]] the position [useFrame] writes for it is within 20
    of the origin. *)
Theorem ornament_stays_within_scatter_radius :
  forall (rng : Random.Source) (count : nat) (type : Ornaments.Kind)
         (i : nat) (d : DualPosition) (p time : R),
    Random.unit_interval rng ->
    Random.run (Ornaments.useDualStateInstances count type) rng !! i = Some d ->
    0 <= p <= 1 ->
    norm3 (Ornaments.position
             (Ornaments.frameInstance (Ornaments.eased p) time d i)) <= 20.
Proof.
  intros rng count type i d p time Hrng Hd Hp.
  assert (Hi : (i < count)%nat).
  { apply lookup_lt_Some in Hd.
    rewrite useDualStateInstances_length in Hd. exact Hd. }
  rewrite useDualStateInstances_lookup in Hd by exact Hi. injection Hd as <-.
  pose proof (eased_unit p Hp) as He.
  assert (Hs : norm3 (scatter (ornamentAt type rng i)) <= 20).
  { cbn [scatter ornamentAt]. rewrite ornaments_scatterPoint_spec.
    pose proof (Hrng (8 * i + 2)%nat).
    rewrite norm3_spec_spherical; lra. }
  assert (Ht : norm3 (tree (ornamentAt type rng i)) <= 20).
  { cbn [tree ornamentAt]. apply ornaments_treePoint_norm, Hrng. }
  pose proof (norm3_lerp _ _ _ 20 He Hs Ht) as H.
  unfold Ornaments.frameInstance.
  destruct (scatter (ornamentAt type rng i)) as [[s0 s1] s2].
  destruct (tree (ornamentAt type rng i)) as [[t0 t1] t2].
  destruct (rotation (ornamentAt type rng i)) as [[r0 r1] r2].
  exact H.
Qed.

(** The second of two spheres, half-way through the morph. *)
Lemma ornament_stays_within_scatter_radius_witness :
  let rng : Random.Source := fun _ => 0.5 in
  let d := ornamentAt Ornaments.sphere rng 1 in
  Random.unit_interval rng
  /\ Random.run (Ornaments.useDualStateInstances 2 Ornaments.sphere) rng !! 1%nat
     = Some d
  /\ 0 <= 0.5 <= 1
  /\ norm3 (Ornaments.position
              (Ornaments.frameInstance (Ornaments.eased 0.5) 3 d 1)) <= 20.
Proof.
  cbn zeta.
  assert (H : Random.unit_interval (fun _ => 0.5)) by (intros k; lra).
  assert (Hd : Random.run (Ornaments.useDualStateInstances 2 Ornaments.sphere)
                 (fun _ => 0.5) !! 1%nat
               = Some (ornamentAt Ornaments.sphere (fun _ => 0.5) 1))
    by reflexivity.
  assert (Hp : 0 <= 0.5 <= 1) by lra.
  split; [exact H|]. split; [exact Hd|]. split; [exact Hp|].
  exact (ornament_stays_within_scatter_radius (fun _ => 0.5) 2 Ornaments.sphere 1
           _ 0.5 3 H Hd Hp).
Defined.

(** X21: a generated needle's interpolated position, the shader's
    [mix(aScatterPos, aTreePos, easedProgress)], stays within 15 of the
    origin for progress in [[0,1]]. *)
Theorem foliage_stays_within_scatter_radius :
  forall (rng : Random.Source) (count i : nat) (s t : Vec3) (p : R),
    Random.unit_interval rng ->
    let b := Random.run (Foliage.generate count) rng in
    Foliage.vec3_at (Foliage.scatterPos b) i = Some s ->
    Foliage.vec3_at (Foliage.treePos b) i = Some t ->
    (i < count)%nat ->
    0 <= p <= 1 ->
    norm3 (Foliage.mix3 s t (Foliage.easeInOutCubic p)) <= 15.
Proof.
  intros rng count i s t p Hrng b Hs Ht Hi Hp. subst b.
  destruct (generate_lookup count rng i Hi) as [Hs' Ht'].
  rewrite Hs' in Hs. rewrite Ht' in Ht. injection Hs as <-. injection Ht as <-.
  pose proof (easeInOutCubic_unit p Hp) as He.
  assert (Hns : norm3 (foliageScatterAt rng i) <= 15).
  { unfold foliageScatterAt. rewrite foliage_scatterPoint_spec.
    pose proof (cbrt_unit _ (Hrng (6 * i)%nat)).
    unfold Spec.scatterSample. rewrite norm3_spec_spherical; lra. }
  assert (Hnt : norm3 (foliageTreeAt rng i) <= 15)
    by (apply foliage_treePoint_norm; apply Hrng).
  pose proof (norm3_lerp _ _ _ 15 He Hns Hnt) as H.
  destruct (foliageScatterAt rng i) as [[s0 s1] s2].
  destruct (foliageTreeAt rng i) as [[t0 t1] t2].
  cbn [fst snd] in H. unfold Foliage.mix3, Foliage.mix.
  unfold MathUtils.lerp in H.
  replace (s0 * (1 - Foliage.easeInOutCubic p) + t0 * Foliage.easeInOutCubic p)
    with ((1 - Foliage.easeInOutCubic p) * s0 + Foliage.easeInOutCubic p * t0)
    by ring.
  replace (s1 * (1 - Foliage.easeInOutCubic p) + t1 * Foliage.easeInOutCubic p)
    with ((1 - Foliage.easeInOutCubic p) * s1 + Foliage.easeInOutCubic p * t1)
    by ring.
  replace (s2 * (1 - Foliage.easeInOutCubic p) + t2 * Foliage.easeInOutCubic p)
    with ((1 - Foliage.easeInOutCubic p) * s2 + Foliage.easeInOutCubic p * t2)
    by ring.
  exact H.
Qed.

(** The second of two needles, half-way through the morph. *)
Lemma foliage_stays_within_scatter_radius_witness :
  let rng : Random.Source := fun _ => 0.5 in
  let b := Random.run (Foliage.generate 2) rng in
  Random.unit_interval rng
  /\ Foliage.vec3_at (Foliage.scatterPos b) 1 = Some (foliageScatterAt rng 1)
  /\ Foliage.vec3_at (Foliage.treePos b) 1 = Some (foliageTreeAt rng 1)
  /\ (1 < 2)%nat
  /\ 0 <= 0.5 <= 1
  /\ norm3 (Foliage.mix3 (foliageScatterAt rng 1) (foliageTreeAt rng 1)
              (Foliage.easeInOutCubic 0.5)) <= 15.
Proof.
  cbn zeta.
  assert (H : Random.unit_interval (fun _ => 0.5)) by (intros k; lra).
  assert (Hi : (1 < 2)%nat) by lia.
  destruct (generate_lookup 2 (fun _ => 0.5) 1 Hi) as [Hs Ht].
  assert (Hp : 0 <= 0.5 <= 1) by lra.
  split; [exact H|]. split; [exact Hs|]. split; [exact Ht|].
  split; [exact Hi|]. split; [exact Hp|].
  exact (foliage_stays_within_scatter_radius (fun _ => 0.5) 2 1 _ _ 0.5
           H Hs Ht Hi Hp).
Defined.

(* ===================================================================== *)
(** * Further properties of the instance matrices *)
(* ===================================================================== *)

Section InstanceWrites.

Variable f : DualPosition -> nat -> Ornaments.Matrix4.

(** The loop leaves the matrices past the end of [data] alone. *)
Lemma forEach_lookup_above (data : list DualPosition) (i j : nat)
    (ms : list Ornaments.Matrix4) :
  (i + length data <= j)%nat -> Ornaments.forEach f i data ms !! j = ms !! j.
Proof.
  revert i ms. induction data as [|d rest IH]; intros i ms Hj; cbn.
  - reflexivity.
  - cbn in Hj. rewrite IH by lia. unfold Ornaments.setMatrixAt.
    apply list_lookup_insert_ne. lia.
Qed.

(** An element whose index the mesh has gets its matrix, whatever the
    sizes of [data] and of the mesh. *)
Lemma forEach_lookup_in (data : list DualPosition) (i k : nat)
    (ms : list Ornaments.Matrix4) (d : DualPosition) :
  (i + k < length ms)%nat ->
  data !! k = Some d ->
  Ornaments.forEach f i data ms !! (i + k)%nat = Some (f d (i + k)%nat).
Proof.
  revert i k ms. induction data as [|d0 rest IH]; intros i k ms Hlen Hk.
  - discriminate.
  - cbn [Ornaments.forEach]. destruct k as [|k]; cbn in Hk.
    + injection Hk as ->. rewrite Nat.add_0_r in Hlen |- *.
      rewrite forEach_lookup_below by lia.
      unfold Ornaments.setMatrixAt. apply list_lookup_insert_eq. lia.
    + replace (i + S k)%nat with (S i + k)%nat in Hlen |- * by lia.
      apply IH; [|exact Hk].
      unfold Ornaments.setMatrixAt. rewrite length_insert. exact Hlen.
Qed.

End InstanceWrites.

Section InstanceValues.

Lemma frameInstance_at_0 (time : R) (d : DualPosition) (i : nat) :
  Ornaments.frameInstance (Ornaments.eased 0) time d i =
  Ornaments.compose (scatter d)
    (fst (fst (rotation d)) + time * 0.1, snd (fst (rotation d)) + time * 0.2,
     snd (rotation d))
    (scale d, scale d, scale d).
Proof.
  rewrite eased_0. unfold Ornaments.frameInstance, MathUtils.lerp.
  destruct (scatter d) as [[s0 s1] s2], (tree d) as [[t0 t1] t2],
    (rotation d) as [[r0 r1] r2]. cbn [fst snd].
  f_equal; vec3_eq.
Qed.

Lemma frameInstance_at_1 (time : R) (d : DualPosition) (i : nat) :
  Ornaments.position (Ornaments.frameInstance (Ornaments.eased 1) time d i)
  = tree d.
Proof.
  rewrite eased_1. unfold Ornaments.frameInstance, MathUtils.lerp.
  destruct (scatter d) as [[s0 s1] s2], (tree d) as [[t0 t1] t2],
    (rotation d) as [[r0 r1] r2]. cbn [Ornaments.position].
  vec3_eq.
Qed.

End InstanceValues.

(** X22: the scale pulse stays within ten percent: for a generated
    ornament and progress in [[0,1]] the three scale factors [useFrame]
    writes are equal, positive and between 0.9 and 1.1 times the
    ornament's own scale. *)
Theorem ornament_scale_pulse_bounds :
  forall (rng : Random.Source) (count : nat) (type : Ornaments.Kind)
         (i : nat) (d : DualPosition) (p time : R),
    Random.unit_interval rng ->
    Random.run (Ornaments.useDualStateInstances count type) rng !! i = Some d ->
    0 <= p <= 1 ->
    exists k : R,
      Ornaments.scaling (Ornaments.frameInstance (Ornaments.eased p) time d i)
      = (k, k, k)
      /\ 0.9 * scale d <= k <= 1.1 * scale d
      /\ 0 < k.
Proof.
  intros rng count type i d p time Hrng Hd Hp.
  assert (Hi : (i < count)%nat).
  { apply lookup_lt_Some in Hd.
    rewrite useDualStateInstances_length in Hd. exact Hd. }
  rewrite useDualStateInstances_lookup in Hd by exact Hi. injection Hd as <-.
  pose proof (eased_unit p Hp) as He.
  pose proof (SIN_bound (time + INR i)) as [Hl Hh].
  assert (Hsc : 0.2 <= scale (ornamentAt type rng i)).
  { pose proof (Hrng (8 * i + 5)%nat).
    destruct type; cbn [scale ornamentAt Ornaments.scaleOf]; lra. }
  unfold Ornaments.frameInstance.
  destruct (scatter (ornamentAt type rng i)) as [[s0 s1] s2].
  destruct (tree (ornamentAt type rng i)) as [[t0 t1] t2].
  destruct (rotation (ornamentAt type rng i)) as [[r0 r1] r2].
  cbn [Ornaments.scaling].
  eexists. split; [reflexivity|].
  set (sc := scale _) in *. set (e := Ornaments.eased p) in *.
  set (s := sin _) in *.
  assert (Hes : -1 <= e * s <= 1) by nra.
  assert (H1 : 0 <= sc * (1 + e * s)) by (apply Rmult_le_pos; lra).
  assert (H2 : 0 <= sc * (1 - e * s)) by (apply Rmult_le_pos; lra).
  split; [split|]; nra.
Qed.

(** The second of two boxes, half-way through the morph. *)
Lemma ornament_scale_pulse_bounds_witness :
  let rng : Random.Source := fun _ => 0.5 in
  let d := ornamentAt Ornaments.box rng 1 in
  Random.unit_interval rng
  /\ Random.run (Ornaments.useDualStateInstances 2 Ornaments.box) rng !! 1%nat
     = Some d
  /\ 0 <= 0.5 <= 1
  /\ exists k : R,
       Ornaments.scaling (Ornaments.frameInstance (Ornaments.eased 0.5) 3 d 1)
       = (k, k, k)
       /\ 0.9 * scale d <= k <= 1.1 * scale d
       /\ 0 < k.
Proof.
  cbn zeta.
  assert (H : Random.unit_interval (fun _ => 0.5)) by (intros k; lra).
  assert (Hd : Random.run (Ornaments.useDualStateInstances 2 Ornaments.box)
                 (fun _ => 0.5) !! 1%nat
               = Some (ornamentAt Ornaments.box (fun _ => 0.5) 1))
    by reflexivity.
  assert (Hp : 0 <= 0.5 <= 1) by lra.
  split; [exact H|]. split; [exact Hd|]. split; [exact Hp|].
  exact (ornament_scale_pulse_bounds (fun _ => 0.5) 2 Ornaments.box 1
           _ 0.5 3 H Hd Hp).
Defined.

(** X23: on a mounted mesh [useLayoutEffect] writes, for every element
    the mesh has a slot for, the matrix of its scatter position, base
    rotation and own scale, flags the buffer and leaves progress alone;
    without a mesh it does nothing. *)
Theorem layout_effect_places_scatter_layout :
  forall (data : list DualPosition) (p : R) (mesh : Ornaments.InstancedMesh),
    let s' := Ornaments.useLayoutEffect data (Ornaments.mkState p (Some mesh)) in
    Ornaments.progressRef s' = p
    /\ (exists mesh' : Ornaments.InstancedMesh,
          Ornaments.meshRef s' = Some mesh'
          /\ Ornaments.needsUpdate mesh' = true
          /\ length (Ornaments.instanceMatrix mesh')
             = length (Ornaments.instanceMatrix mesh)
          /\ forall (i : nat) (d : DualPosition),
               data !! i = Some d ->
               (i < length (Ornaments.instanceMatrix mesh))%nat ->
               Ornaments.instanceMatrix mesh' !! i
               = Some (Ornaments.compose (scatter d) (rotation d)
                         (scale d, scale d, scale d)))
    /\ Ornaments.useLayoutEffect data (Ornaments.mkState p None)
       = Ornaments.mkState p None.
Proof.
  intros data p mesh s'. subst s'. cbn. split; [reflexivity|].
  split; [|reflexivity].
  eexists. split; [reflexivity|]. split; [reflexivity|]. cbn. split.
  - apply forEach_length.
  - intros i d Hd Hi.
    apply (forEach_lookup_in Ornaments.initialInstance data 0 i); assumption.
Qed.

(** X24: every frame on a mounted mesh, snapping or not, rewrites the
    matrix of each element the mesh has a slot for from the frame's new
    progress and clock time, keeps the number of matrices, and leaves the
    slots past the end of [data] untouched. *)
Theorem frame_rewrites_every_instance :
  forall (type : Ornaments.Kind) (data : list DualPosition) (f : Frame)
         (p : R) (mesh : Ornaments.InstancedMesh),
    let s' := Ornaments.useFrame type data f (Ornaments.mkState p (Some mesh)) in
    exists mesh' : Ornaments.InstancedMesh,
      Ornaments.meshRef s' = Some mesh'
      /\ Ornaments.needsUpdate mesh' = true
      /\ length (Ornaments.instanceMatrix mesh')
         = length (Ornaments.instanceMatrix mesh)
      /\ (forall (i : nat) (d : DualPosition),
            data !! i = Some d ->
            (i < length (Ornaments.instanceMatrix mesh))%nat ->
            Ornaments.instanceMatrix mesh' !! i
            = Some (Ornaments.frameInstance
                      (Ornaments.eased (Ornaments.progressRef s'))
                      (elapsedTime f) d i))
      /\ (forall i : nat,
            (length data <= i)%nat ->
            Ornaments.instanceMatrix mesh' !! i
            = Ornaments.instanceMatrix mesh !! i).
Proof.
  intros type data f p mesh s'. subst s'. cbn.
  eexists. split; [reflexivity|]. split; [reflexivity|]. cbn. split; [|split].
  - apply forEach_length.
  - intros i d Hd Hi.
    apply (forEach_lookup_in _ data 0 i); assumption.
  - intros i Hi. apply forEach_lookup_above. cbn. exact Hi.
Qed.

(** X25: at rest the ornaments only spin: a frame that starts with
    progress at its target writes, in the scattered state, the scatter
    position, the unpulsed scale and the rotation advanced by [0.1 t] and
    [0.2 t]; in the tree state it writes the tree position. *)
Theorem ornaments_at_rest_only_spin :
  forall (type : Ornaments.Kind) (data : list DualPosition)
         (time dt : R) (mesh : Ornaments.InstancedMesh)
         (i : nat) (d : DualPosition),
    data !! i = Some d ->
    (i < length (Ornaments.instanceMatrix mesh))%nat ->
    (exists mesh' : Ornaments.InstancedMesh,
        Ornaments.meshRef
          (Ornaments.useFrame type data (mkFrame SCATTERED time dt)
             (Ornaments.mkState 0 (Some mesh))) = Some mesh'
        /\ Ornaments.instanceMatrix mesh' !! i
           = Some (Ornaments.compose (scatter d)
                     (fst (fst (rotation d)) + time * 0.1,
                      snd (fst (rotation d)) + time * 0.2,
                      snd (rotation d))
                     (scale d, scale d, scale d)))
    /\ (exists (mesh' : Ornaments.InstancedMesh) (m : Ornaments.Matrix4),
          Ornaments.meshRef
            (Ornaments.useFrame type data (mkFrame TREE_SHAPE time dt)
               (Ornaments.mkState 1 (Some mesh))) = Some mesh'
          /\ Ornaments.instanceMatrix mesh' !! i = Some m
          /\ Ornaments.position m = tree d).
Proof.
  intros type data time dt mesh i d Hd Hi. split.
  - cbn. eexists. split; [reflexivity|]. cbn.
    rewrite (forEach_lookup_in _ data 0 i _ d Hi Hd). cbn [Nat.add].
    rewrite target_of_scattered, updateProgress_at_target.
    rewrite frameInstance_at_0. reflexivity.
  - cbn. eexists _, _. split; [reflexivity|]. cbn.
    split; [apply (forEach_lookup_in _ data 0 i _ d Hi Hd)|]. cbn [Nat.add].
    rewrite target_of_tree, updateProgress_at_target.
    apply frameInstance_at_1.
Qed.

(** One box, its matrix written at clock time 4. *)
Lemma ornaments_at_rest_only_spin_witness :
  let d := mkDualPosition (12, 0, 0) (2, 3, 0) 0.5 (1, 2, 0) in
  let mesh := Ornaments.mkInstancedMesh [Ornaments.initialInstance d 0] false in
  [d] !! 0%nat = Some d
  /\ (0 < length (Ornaments.instanceMatrix mesh))%nat
  /\ exists mesh' : Ornaments.InstancedMesh,
       Ornaments.meshRef
         (Ornaments.useFrame Ornaments.box [d] (mkFrame SCATTERED 4 0.016)
            (Ornaments.mkState 0 (Some mesh))) = Some mesh'
       /\ Ornaments.instanceMatrix mesh' !! 0%nat
          = Some (Ornaments.compose (12, 0, 0) (1 + 4 * 0.1, 2 + 4 * 0.2, 0)
                    (0.5, 0.5, 0.5)).
Proof.
  cbn zeta.
  assert (Hd : [mkDualPosition (12, 0, 0) (2, 3, 0) 0.5 (1, 2, 0)] !! 0%nat
               = Some (mkDualPosition (12, 0, 0) (2, 3, 0) 0.5 (1, 2, 0)))
    by reflexivity.
  assert (Hi : Nat.lt 0 (length (Ornaments.instanceMatrix
                                   (Ornaments.mkInstancedMesh
                                      [Ornaments.initialInstance
                                         (mkDualPosition (12, 0, 0) (2, 3, 0) 0.5
                                            (1, 2, 0)) 0] false))))
    by (cbn; lia).
  split; [exact Hd|]. split; [exact Hi|].
  exact (proj1 (ornaments_at_rest_only_spin Ornaments.box _ 4 0.016 _ 0 _ Hd Hi)).
Defined.
